(** * plot.py: the grouped bar layout of [bar_subplot] and [bar_plot]

    A shallow embedding of [src/plot.py].  The two functions of the script
    that carry logic, [bar_subplot] and [bar_plot], are translated statement
    by statement into a small state-and-exception monad [Py]:

    - the caller's objects (the list of tick labels, the list of series
      dicts, the value and error lists inside each dict) live in a heap of
      Python objects and are passed by reference, as in Python;
    - matplotlib is a collaborator whose code is not part of the script: every
      call made to it ([ax.bar], [ax.set_xticks], [plt.savefig], ...) is
      appended to a log, and the collaborator may answer any call by raising
      (the section variable [rejects]);
    - Python floats are an interface [PyFloat] with two instances: IEEE
      binary64 ([float]), the arithmetic of the program, and exact rational
      arithmetic ([Qc]), the idealisation in which the closed forms of the
      layout hold.  What is proved for every instance holds of the program;
      what is proved in [Qc] alone is marked as exact arithmetic and holds
      of the program only up to rounding. *)

From Stdlib Require Import ZArith QArith Qcanon Qabs String List.
From Stdlib Require Import PrimFloat Uint63 Floats.
From stdpp Require Import base option numbers list gmap strings.

Open Scope Z_scope.

(** ** Numbers *)

(** The arithmetic [bar_subplot] performs on floats: conversion of a Python
    [int], [+], [*] and [/]. *)
Class PyFloat (F : Type) := {
  of_int : Z → F;
  fadd : F → F → F;
  fmul : F → F → F;
  fdiv : F → F → F
}.

(** Exact arithmetic on canonical rationals: no rounding, no [inf], no
    [nan]. *)
Global Instance Qc_PyFloat : PyFloat Qc := {|
  of_int := Qc_of_Z;
  fadd := Qcplus;
  fmul := Qcmult;
  fdiv := Qcdiv
|}.

(** Conversion of an [int] below [2^63] in magnitude (every [len] is) to
    binary64. *)
Definition float_of_int (z : Z) : float :=
  if z <? 0 then PrimFloat.opp (PrimFloat.of_uint63 (Uint63.of_Z (- z)))
  else PrimFloat.of_uint63 (Uint63.of_Z z).

(** IEEE binary64, the arithmetic of CPython and NumPy. *)
Global Instance binary64_PyFloat : PyFloat float := {|
  of_int := float_of_int;
  fadd := PrimFloat.add;
  fmul := PrimFloat.mul;
  fdiv := PrimFloat.div
|}.

(** A decimal literal of the source, such as [0.7]: numerator over
    denominator, rounded once by the division. *)
Definition literal `{PyFloat F} (q : Q) : F :=
  fdiv (of_int (Qnum q)) (of_int (Z.pos (Qden q))).

(** ** Python values and the heap *)

Definition loc := positive.

Inductive value (F : Type) :=
  | VNone
  | VStr (s : string)
  | VInt (z : Z)
  | VFloat (x : F)
  | VRef (l : loc).
Arguments VNone {F}.
Arguments VStr {F} s.
Arguments VInt {F} z.
Arguments VFloat {F} x.
Arguments VRef {F} l.

Inductive pyobj (F : Type) :=
  | OList (items : list (value F))
  | ODict (entries : gmap string (value F)).
Arguments OList {F} items.
Arguments ODict {F} entries.

Inductive exn :=
  | ZeroDivisionError
  | TypeError
  | KeyError (key : string)
  | CollaboratorError (msg : string).

Inductive result (A : Type) :=
  | Ok (a : A)
  | Raise (e : exn).
Arguments Ok {A} a.
Arguments Raise {A} e.

(** ** Calls to the plotting collaborator *)

Definition handle := nat.

Inductive path :=
  | Dir (name : string)
  | Join (parent : path) (name : string).

(** The arguments of one [ax.bar(x, height, width, yerr=, label=, fill=,
    hatch=, edgecolor=, error_kw=)] call. *)
Record bar_args (F : Type) := BarArgs {
  arg_x : list F;
  arg_height : value F;
  arg_width : F;
  arg_yerr : value F;
  arg_label : value F;
  arg_fill : bool;
  arg_hatch : string;
  arg_edgecolor : string;
  arg_error_kw : list (string * Q)
}.
Arguments BarArgs {F}.
Arguments arg_x {F}.
Arguments arg_height {F}.
Arguments arg_width {F}.
Arguments arg_yerr {F}.
Arguments arg_label {F}.
Arguments arg_fill {F}.
Arguments arg_hatch {F}.
Arguments arg_edgecolor {F}.
Arguments arg_error_kw {F}.

(** Keyword arguments forwarded as they are ([**legend_kwargs]). *)
Inductive kwarg :=
  | KStr (s : string)
  | KInt (z : Z)
  | KTuple (zs : list Z).

Definition kwargs := list (string * kwarg).

Inductive call (F : Type) :=
  | plt_subplots
  | ax_bar (ax : handle) (args : bar_args F)
  | ax_set_xlabel (ax : handle) (s : string)
  | ax_set_ylabel (ax : handle) (s : string)
  | ax_set_xticks (ax : handle) (ticks : list Z)
  | ax_set_xticklabels (ax : handle) (labels : value F)
  | ax_tick_params (ax : handle) (axis : string) (length : Z)
  | ax_grid (ax : handle) (visible : bool) (axis : string)
  | ax_legend (ax : handle) (kw : option kwargs)
  | fig_set_size_inches (fig : handle) (size : list F)
  | fig_tight_layout (fig : handle) (pad : Q)
  | plt_savefig (file : path).
Arguments plt_subplots {F}.
Arguments ax_bar {F} ax args.
Arguments ax_set_xlabel {F} ax s.
Arguments ax_set_ylabel {F} ax s.
Arguments ax_set_xticks {F} ax ticks.
Arguments ax_set_xticklabels {F} ax labels.
Arguments ax_tick_params {F} ax axis length.
Arguments ax_grid {F} ax visible axis.
Arguments ax_legend {F} ax kw.
Arguments fig_set_size_inches {F} fig size.
Arguments fig_tight_layout {F} fig pad.
Arguments plt_savefig {F} file.

(** ** The world: the caller's heap and the log of collaborator calls *)

Record World (F : Type) := mkWorld {
  heap : gmap loc (pyobj F);
  trace : list (call F)
}.
Arguments mkWorld {F}.
Arguments heap {F}.
Arguments trace {F}.

Definition Py (F A : Type) : Type := World F → result A * World F.

Definition ret {F A} (a : A) : Py F A := λ w, (Ok a, w).

Definition raise {F A} (e : exn) : Py F A := λ w, (Raise e, w).

Definition bind {F A B} (m : Py F A) (k : A → Py F B) : Py F B :=
  λ w, match m w with
       | (Ok a, w') => k a w'
       | (Raise e, w') => (Raise e, w')
       end.

Declare Scope py_scope.
Delimit Scope py_scope with py.
Notation "'let*' x := m 'in' k" := (bind m (λ x, k))
  (at level 10, x name, m at level 100, k at level 200) : py_scope.
Notation "m ;;; k" := (bind m (λ _, k))
  (at level 100, k at level 200, right associativity) : py_scope.
Open Scope py_scope.

(** ** [itertools.cycle] *)

(** The iterator [cycle(l)]: what is left of the current pass, and the saved
    copy it restarts from. *)
Record cycle_iter (A : Type) := CycleIter {
  pass : list A;
  saved : list A
}.
Arguments CycleIter {A}.
Arguments pass {A}.
Arguments saved {A}.

Definition cycle {A} (l : list A) : cycle_iter A := CycleIter l l.

(** [next(it)]; [None] is [StopIteration], which only [cycle([])] raises. *)
Definition cycle_next {A} (it : cycle_iter A) : option (A * cycle_iter A) :=
  match pass it with
  | c :: r => Some (c, CycleIter r (saved it))
  | [] =>
      match saved it with
      | c :: r => Some (c, CycleIter r (saved it))
      | [] => None
      end
  end.

(** ** Module constants *)

Definition elinewidth : Q := 5 # 10.
Definition capsize : Q := 1.
Definition capthick : Q := 5 # 10.

Definition palette : list string :=
  [ "#19B2FF"; "#2ca02c"; "#FF7F00"; "#654CFF"; "#E51932";
    "#FFBF7F"; "#FFFF99"; "#B2FF8C"; "#A5EDFF"; "#CCBFFF" ]%string.

Definition hatch_list : list string :=
  [ "////////"; "-----"; "+++++++"; "|||||||" ]%string.

(** [np.arange(n)] *)
Definition arange (n : Z) : list Z := seqZ 0 n.

(** [x + offset] for an integer array [x] and a float [offset]. *)
Definition shift `{PyFloat F} (x : list Z) (offset : F) : list F :=
  (λ i, fadd (of_int i) offset) <$> x.

Section Plot.
Context {F : Type} `{PyFloat F}.
(** The collaborator: given the calls it has received, whether it raises
    on the next one. *)
Variable rejects : list (call F) → call F → option string.
(** [figsize], computed at import time from the column width that
    [pubplot] reports for the document class. *)
Variable figsize : list F.

Abbreviation Py := (Py F).
Abbreviation World := (World F).

(** A call to the collaborator: it is logged, then the collaborator
    answers. *)
Definition perform (c : call F) : Py unit := λ w,
  let w' := mkWorld (heap w) (trace w ++ [c]) in
  match rejects (trace w) c with
  | Some msg => (Raise (CollaboratorError msg), w')
  | None => (Ok tt, w')
  end.

Definition is_subplots (c : call F) : bool :=
  match c with plt_subplots => true | _ => false end.

(** [fig, ax = plt.subplots()]: the new figure and its axes are named by
    the number of figures created before. *)
Definition subplots : Py handle := λ w,
  let h := length (filter is_subplots (trace w)) in
  match perform plt_subplots w with
  | (Ok _, w') => (Ok h, w')
  | (Raise e, w') => (Raise e, w')
  end.

(** [len(v)].  A reference always points at an object; the [None] branch
    of the lookup is there for totality. *)
Definition py_len (v : value F) : Py Z := λ w,
  match v with
  | VStr s => (Ok (Z.of_nat (String.length s)), w)
  | VRef l =>
      match heap w !! l with
      | Some (OList items) => (Ok (Z.of_nat (length items)), w)
      | Some (ODict entries) => (Ok (Z.of_nat (size entries)), w)
      | None => (Raise TypeError, w)
      end
  | _ => (Raise TypeError, w)
  end.

Fixpoint chars (s : string) : list (value F) :=
  match s with
  | EmptyString => []
  | String a r => VStr (String a EmptyString) :: chars r
  end.

(** The items [iter(v)] yields. *)
Definition py_iter (v : value F) : Py (list (value F)) := λ w,
  match v with
  | VStr s => (Ok (chars s), w)
  | VRef l =>
      match heap w !! l with
      | Some (OList items) => (Ok items, w)
      | Some (ODict entries) => (Ok (VStr <$> (map_to_list entries).*1), w)
      | None => (Raise TypeError, w)
      end
  | _ => (Raise TypeError, w)
  end.

(** [d[key]] for a string key. *)
Definition py_getitem (d : value F) (key : string) : Py (value F) := λ w,
  match d with
  | VRef l =>
      match heap w !! l with
      | Some (ODict entries) =>
          match entries !! key with
          | Some v => (Ok v, w)
          | None => (Raise (KeyError key), w)
          end
      | _ => (Raise TypeError, w)
      end
  | _ => (Raise TypeError, w)
  end.

(** [x / n] for a float [x] and an int [n]. *)
Definition truediv (x : F) (n : Z) : Py F :=
  if n =? 0 then raise ZeroDivisionError else ret (fdiv x (of_int n)).

(** The loop [for d, color, hatch in zip(data, cycle(palette),
    cycle(hatch_list))] of [bar_subplot], with its running [offset]. *)
Fixpoint bar_loop (ax : handle) (x : list Z) (bar_width : F)
    (data : list (value F)) (colors hatches : cycle_iter string)
    (offset : F) : Py unit :=
  match data with
  | [] => ret tt
  | d :: data' =>
      match cycle_next colors with
      | None => ret tt
      | Some (color, colors') =>
          match cycle_next hatches with
          | None => ret tt
          | Some (hatch, hatches') =>
              let* values := py_getitem d "values" in
              let* errors := py_getitem d "errors" in
              let* label := py_getitem d "label" in
              perform (ax_bar ax
                (BarArgs (shift x offset) values bar_width errors label
                   false hatch color
                   [("elinewidth", elinewidth); ("capsize", capsize);
                    ("capthick", capthick)]%string));;;
              bar_loop ax x bar_width data' colors' hatches'
                (fadd offset bar_width)
          end
      end
  end.

Definition bar_subplot (ax : handle) (xlabel ylabel : option string)
    (xtick_labels data : value F) (width_scale : F) : Py unit :=
  let* n := py_len xtick_labels in
  let x := arange n in
  let* nb_catgs := py_len data in
  let* bar_width := truediv width_scale nb_catgs in
  let offset := fdiv (fmul bar_width (of_int (1 - nb_catgs))) (of_int 2) in
  let* items := py_iter data in
  bar_loop ax x bar_width items (cycle palette) (cycle hatch_list) offset;;;
  match xlabel with
  | Some s => perform (ax_set_xlabel ax s)
  | None => ret tt
  end;;;
  match ylabel with
  | Some s => perform (ax_set_ylabel ax s)
  | None => ret tt
  end;;;
  perform (ax_set_xticks ax x);;;
  perform (ax_set_xticklabels ax xtick_labels);;;
  perform (ax_tick_params ax "both" 0);;;
  perform (ax_grid ax false "x").

Definition bar_plot (xlabel ylabel : option string)
    (xtick_labels data : value F) (fig_name : string) (dest_dir : path)
    (set_figsize : option (list F)) (legend_kwargs : option kwargs)
    (hide_legend : bool) (width_scale : F) : Py unit :=
  let* fig := subplots in
  let ax := fig in
  bar_subplot ax xlabel ylabel xtick_labels data width_scale;;;
  let set_figsize :=
    match set_figsize with
    | None => figsize
    | Some size => size
    end in
  (if negb hide_legend then perform (ax_legend ax legend_kwargs)
   else ret tt);;;
  perform (fig_set_size_inches fig set_figsize);;;
  perform (fig_tight_layout fig (1 # 10));;;
  perform (plt_savefig (Join dest_dir (fig_name ++ ".pdf")));;;
  perform (plt_savefig (Join dest_dir (fig_name ++ ".png"))).

(** A list or dict display: a new object on the heap. *)
Definition alloc (o : pyobj F) : Py (value F) := λ w,
  let l := fresh (dom (heap w)) in
  (Ok (VRef l), mkWorld (<[l := o]> (heap w)) (trace w)).

Definition example_bar_plot : Py unit :=
  let xlabel := Some "Age group"%string in
  let ylabel := Some "Fraction of people (\%)"%string in
  let* xtick_labels :=
    alloc (OList (VStr <$> ["0--12"; "13--17"; "18--29"; "30--49"; "50+"]%string)) in
  let* values1 := alloc (OList (VInt <$> [12; 32; 48; 41; 85])) in
  let* errors1 := alloc (OList (VInt <$> [1; 2; 1; 10; 20])) in
  let* series1 :=
    alloc (ODict (<["label" := VStr "Cilantro"]>
                 (<["values" := values1]> (<["errors" := errors1]> ∅)))) in
  let* values2 := alloc (OList (VInt <$> [84; 72; 99; 87; 60])) in
  let* errors2 := alloc (OList (VInt <$> [5; 6; 2; 10; 18])) in
  let* series2 :=
    alloc (ODict (<["label" := VStr "Basil"]>
                 (<["values" := values2]> (<["errors" := errors2]> ∅)))) in
  let* data := alloc (OList [series1; series2]) in
  let dest_dir := Dir "." in
  let fig_name := "example_bar_plot"%string in
  let set_figsize := figsize in
  let legend_kwargs :=
    [("loc", KStr "lower right"); ("ncol", KInt 2);
     ("bbox_to_anchor", KTuple [0; 1; 1; 1])]%string in
  bar_plot xlabel ylabel xtick_labels data fig_name dest_dir
    (Some set_figsize) (Some legend_kwargs) false (literal (7 # 10)).

End Plot.

(** The collaborator that accepts every call. *)
Definition accepting {F} : list (call F) → call F → option string :=
  λ _ _, None.

Definition empty_world {F} : World F := mkWorld ∅ [].

(** ** Reading a group of series off the heap *)

(** A series as the data model has it: the three entries of its dict. *)
Record series (F : Type) := Series {
  s_label : value F;
  s_values : value F;
  s_errors : value F
}.
Arguments Series {F}.
Arguments s_label {F}.
Arguments s_values {F}.
Arguments s_errors {F}.

(** The series a reference to a dict with the keys ['label'], ['values'] and
    ['errors'] stands for. *)
Definition read_series {F} (h : gmap loc (pyobj F)) (d : value F)
    : option (series F) :=
  match d with
  | VRef l =>
      match h !! l with
      | Some (ODict entries) =>
          values ← entries !! "values"%string;
          errors ← entries !! "errors"%string;
          label ← entries !! "label"%string;
          Some (Series label values errors)
      | _ => None
      end
  | _ => None
  end.

(** The inputs of the annotated types [xtick_labels: list] and
    [data: list[dict]]: the tick labels and the series they denote. *)
Definition group_at {F} (h : gmap loc (pyobj F)) (xtick_labels data : value F)
    : option (list (value F) * list (series F)) :=
  match xtick_labels, data with
  | VRef xl, VRef dl =>
      match h !! xl, h !! dl with
      | Some (OList labels), Some (OList ds) =>
          ss ← mapM (read_series h) ds;
          Some (labels, ss)
      | _, _ => None
      end
  | _, _ => None
  end.

(** The length of a list a value refers to. *)
Definition list_length_at {F} (h : gmap loc (pyobj F)) (v : value F)
    : option nat :=
  match v with
  | VRef l =>
      match h !! l with
      | Some (OList items) => Some (length items)
      | _ => None
      end
  | _ => None
  end.

(** ** Observing the log *)

(** The [ax.bar] calls of a log, in order. *)
Definition bars_of {F} (cs : list (call F)) : list (bar_args F) :=
  omap (λ c, match c with ax_bar _ args => Some args | _ => None end) cs.

(** The files [plt.savefig] was asked to write, in order. *)
Definition savefigs_of {F} (cs : list (call F)) : list path :=
  omap (λ c, match c with plt_savefig file => Some file | _ => None end) cs.

(** The calls logged between two worlds. *)
Definition new_calls {F} (w w' : World F) : list (call F) :=
  drop (length (trace w)) (trace w').

(** Issuing a list of calls one after the other. *)
Fixpoint issue {F} (rejects : list (call F) → call F → option string)
    (cs : list (call F)) : Py F unit :=
  match cs with
  | [] => ret tt
  | c :: cs' => perform rejects c;;; issue rejects cs'
  end.

(** The [ax.bar] calls of the loop of [bar_subplot] for the series [ss], the
    first of them at input position [j] with running offset [offset]. *)
Fixpoint loop_calls `{PyFloat F} (ax : handle) (x : list Z) (bar_width : F)
    (ss : list (series F)) (j : nat) (offset : F) : list (call F) :=
  match ss with
  | [] => []
  | s :: ss' =>
      ax_bar ax
        (BarArgs (shift x offset) (s_values s) bar_width (s_errors s)
           (s_label s) false
           (nth (j `mod` 4)%nat hatch_list ""%string)
           (nth (j `mod` 10)%nat palette ""%string)
           [("elinewidth", elinewidth); ("capsize", capsize);
            ("capthick", capthick)]%string)
      :: loop_calls ax x bar_width ss' (S j) (fadd offset bar_width)
  end.

(** The calls of [bar_subplot] after its loop. *)
Definition axis_calls {F} (ax : handle) (xlabel ylabel : option string)
    (xtick_labels : value F) (x : list Z) : list (call F) :=
  match xlabel with Some s => [ax_set_xlabel ax s] | None => [] end ++
  match ylabel with Some s => [ax_set_ylabel ax s] | None => [] end ++
  [ax_set_xticks ax x; ax_set_xticklabels ax xtick_labels;
   ax_tick_params ax "both"%string 0; ax_grid ax false "x"%string].

(** All the calls of [bar_subplot] on [N] tick labels and the series [ss]. *)
Definition subplot_calls `{PyFloat F} (ax : handle)
    (xlabel ylabel : option string) (xtick_labels : value F) (N : nat)
    (ss : list (series F)) (width_scale : F) : list (call F) :=
  let x := arange (Z.of_nat N) in
  let nb_catgs := Z.of_nat (length ss) in
  let bar_width := fdiv width_scale (of_int nb_catgs) in
  let offset := fdiv (fmul bar_width (of_int (1 - nb_catgs))) (of_int 2) in
  loop_calls ax x bar_width ss 0 offset ++
  axis_calls ax xlabel ylabel xtick_labels x.

(** A [cycle(l)] iterator from which [j] items have been drawn. *)
Definition cycle_at {A} (l : list A) (j : nat) (it : cycle_iter A) : Prop :=
  ∃ p, (p ≤ length l)%nat ∧ (p `mod` length l = j `mod` length l)%nat ∧
       pass it = drop p l ∧ saved it = l.


(** ** Geometry of the emitted bars (exact arithmetic) *)




(** ** Effects of a computation *)

(** A computation that leaves the heap as it found it and only appends calls
    satisfying [P] to the log. *)
Definition logs_only {F A} (P : call F → Prop) (m : Py F A) : Prop :=
  ∀ w, heap (m w).2 = heap w ∧
       ∃ cs, trace (m w).2 = trace w ++ cs ∧ Forall P cs.

Definition no_savefig {F} (c : call F) : Prop :=
  match c with plt_savefig _ => False | _ => True end.

(** The outcome the specification asks of a mismatched call: an exception,
    and no call made to the collaborator. *)
Definition fails_before_rendering {F A} (w : World F)
    (run : result A * World F) : Prop :=
  (∃ e, run.1 = Raise e) ∧ new_calls w run.2 = [].

(** ** Sample inputs *)

(** The heap [example_bar_plot] builds: five tick labels and the two series
    of the survey. *)
Definition survey_heap {F} : gmap loc (pyobj F) :=
  <[1%positive := OList (VStr <$> ["0--12"; "13--17"; "18--29"; "30--49"; "50+"]%string)]>
  (<[2%positive := OList (VInt <$> [12; 32; 48; 41; 85])]>
  (<[3%positive := OList (VInt <$> [1; 2; 1; 10; 20])]>
  (<[4%positive := ODict (<["label"%string := VStr "Cilantro"]>
       (<["values"%string := VRef 2%positive]> (<["errors"%string := VRef 3%positive]> ∅)))]>
  (<[5%positive := OList (VInt <$> [84; 72; 99; 87; 60])]>
  (<[6%positive := OList (VInt <$> [5; 6; 2; 10; 18])]>
  (<[7%positive := ODict (<["label"%string := VStr "Basil"]>
       (<["values"%string := VRef 5%positive]> (<["errors"%string := VRef 6%positive]> ∅)))]>
  (<[8%positive := OList [VRef 4%positive; VRef 7%positive]]> ∅))))))).

(** Tick labels [["A", "B"]] and one series with values [[1, 2]] and errors
    [[0.1, 0.2]]. *)
Definition single_heap `{PyFloat F} : gmap loc (pyobj F) :=
  <[1%positive := OList [VStr "A"; VStr "B"]]>
  (<[2%positive := OList [VInt 1; VInt 2]]>
  (<[3%positive := OList [VFloat (literal (1 # 10)); VFloat (literal (2 # 10))]]>
  (<[4%positive := ODict (<["label"%string := VStr "s"]>
       (<["values"%string := VRef 2%positive]> (<["errors"%string := VRef 3%positive]> ∅)))]>
  (<[5%positive := OList [VRef 4%positive]]> ∅)))).

(** Five tick labels and one series with three values and three errors. *)
Definition mismatch_heap {F} : gmap loc (pyobj F) :=
  <[1%positive := OList (VStr <$> ["a"; "b"; "c"; "d"; "e"]%string)]>
  (<[2%positive := OList (VInt <$> [1; 2; 3])]>
  (<[3%positive := OList (VInt <$> [1; 1; 1])]>
  (<[4%positive := ODict (<["label"%string := VStr "short"]>
       (<["values"%string := VRef 2%positive]> (<["errors"%string := VRef 3%positive]> ∅)))]>
  (<[5%positive := OList [VRef 4%positive]]> ∅)))).

(** Two tick labels and the same series dict listed twelve times. *)
Definition dozen_heap {F} : gmap loc (pyobj F) :=
  <[1%positive := OList [VStr "A"; VStr "B"]]>
  (<[2%positive := OList [VInt 1; VInt 2]]>
  (<[3%positive := OList [VInt 0; VInt 0]]>
  (<[4%positive := ODict (<["label"%string := VStr "s"]>
       (<["values"%string := VRef 2%positive]> (<["errors"%string := VRef 3%positive]> ∅)))]>
  (<[5%positive := OList (replicate 12 (VRef 4%positive))]> ∅)))).

(** Two tick labels and no series. *)
Definition empty_group_heap {F} : gmap loc (pyobj F) :=
  <[1%positive := OList [VStr "A"; VStr "B"]]>
  (<[2%positive := OList []]> ∅).

(** A collaborator that raises on every [ax.bar] call. *)
Definition rejects_bars {F} : list (call F) → call F → option string :=
  λ _ c, match c with
         | ax_bar _ _ => Some "shape mismatch"%string
         | _ => None
         end.

(** The tick labels and the series [survey_heap] holds at locations 1
    and 8. *)
Definition survey_labels {F} : list (value F) :=
  VStr <$> ["0--12"; "13--17"; "18--29"; "30--49"; "50+"]%string.

Definition survey_series {F} : list (series F) :=
  [Series (VStr "Cilantro") (VRef 2%positive) (VRef 3%positive);
   Series (VStr "Basil") (VRef 5%positive) (VRef 6%positive)].



(** ** Ill-formed items of [data] *)

(** The exception the loop body of [bar_subplot] raises on the item [d]
    before it reaches [ax.bar]: the subscripts are evaluated in the order
    [d['values']], [d['errors']], [d['label']]. *)
Definition item_error {F} (h : gmap loc (pyobj F)) (d : value F)
    : option exn :=
  match d with
  | VRef l =>
      match h !! l with
      | Some (ODict entries) =>
          match entries !! "values"%string with
          | None => Some (KeyError "values")
          | Some _ =>
              match entries !! "errors"%string with
              | None => Some (KeyError "errors")
              | Some _ =>
                  match entries !! "label"%string with
                  | None => Some (KeyError "label")
                  | Some _ => None
                  end
              end
          end
      | _ => Some TypeError
      end
  | _ => Some TypeError
  end.

(** Values [len] is not defined on. *)
Definition unsized {F} (v : value F) : bool :=
  match v with
  | VNone | VInt _ | VFloat _ => true
  | _ => false
  end.

(** ** Kinds of calls *)

(** A method call on the axes [ax] of the kind [bar_subplot] makes. *)
Definition on_axes {F} (ax : handle) (c : call F) : Prop :=
  match c with
  | ax_bar a _ | ax_set_xlabel a _ | ax_set_ylabel a _ | ax_set_xticks a _
  | ax_set_xticklabels a _ | ax_tick_params a _ _ | ax_grid a _ _ => a = ax
  | _ => False
  end.

(** The fixed styling of a bar: unfilled, hatched, coloured from the
    palette, with the module's error-bar style. *)
Definition house_style {F} (c : call F) : Prop :=
  match c with
  | ax_bar _ b =>
      arg_fill b = false ∧
      arg_hatch b ∈ hatch_list ∧
      arg_edgecolor b ∈ palette ∧
      arg_error_kw b =
        [("elinewidth", elinewidth); ("capsize", capsize);
         ("capthick", capthick)]%string
  | _ => True
  end.

(** A call on the axes [ax], in the house style if it draws a bar. *)
Definition drawn_in_style {F} (ax : handle) (c : call F) : Prop :=
  on_axes ax c ∧ house_style c.

(** The exceptions the script raises itself. *)
Definition own_exn (e : exn) : Prop :=
  match e with
  | CollaboratorError _ => False
  | _ => True
  end.

(** ** Accepted and rejected calls *)

(** The collaborator, having received the calls [t], accepts the calls [cs]
    one after the other. *)
Fixpoint accepted {F} (rejects : list (call F) → call F → option string)
    (t cs : list (call F)) : Prop :=
  match cs with
  | [] => True
  | c :: cs' => rejects t c = None ∧ accepted rejects (t ++ [c]) cs'
  end.

(** How the calls [cs] made from the log [t] relate to the result [r]: a
    collaborator exception is the answer to the last call made, every call
    before it having been accepted; otherwise every call was accepted. *)
Definition fail_fast_outcome {F A}
    (rejects : list (call F) → call F → option string)
    (t : list (call F)) (r : result A) (cs : list (call F)) : Prop :=
  match r with
  | Raise (CollaboratorError msg) =>
      ∃ cs0 c, cs = cs0 ++ [c] ∧ accepted rejects t cs0 ∧
               rejects (t ++ cs0) c = Some msg
  | _ => accepted rejects t cs
  end.

Definition fail_fast {F A}
    (rejects : list (call F) → call F → option string) (m : Py F A) : Prop :=
  ∀ w, ∃ cs, trace (m w).2 = trace w ++ cs ∧
             fail_fast_outcome rejects (trace w) (m w).1 cs.

(** A collaborator that raises on the third call it receives. *)
Definition rejects_third {F} : list (call F) → call F → option string :=
  λ t _, if decide (length t = 2%nat) then Some "backend failure"%string
         else None.

(** Two tick labels and three items: a series, a dict without ['errors'],
    and [None]. *)
Definition broken_heap {F} : gmap loc (pyobj F) :=
  <[1%positive := OList [VStr "A"; VStr "B"]]>
  (<[2%positive := OList [VInt 1; VInt 2]]>
  (<[3%positive := OList [VInt 0; VInt 0]]>
  (<[4%positive := ODict (<["label"%string := VStr "s"]>
       (<["values"%string := VRef 2%positive]>
       (<["errors"%string := VRef 3%positive]> ∅)))]>
  (<[5%positive := ODict (<["label"%string := VStr "t"]>
       (<["values"%string := VRef 2%positive]> ∅))]>
  (<[6%positive := OList [VRef 4%positive; VRef 5%positive; VNone]]>
  (<[7%positive := ODict (<["a"%string := VRef 4%positive]> ∅)]> ∅)))))).


(** ** Binary64 values as real numbers *)


(** A positive or negative zero. *)
Definition signed_zero (x : float) : Prop := ∃ s, Prim2SF x = S754_zero s.







(** * Properties *)

(** ** [itertools.cycle] yields [l[j mod len(l)]] at its [j]-th draw *)

Lemma cycle_at_fresh {A} (l : list A) : cycle_at l 0 (cycle l).
Proof. exists 0%nat. repeat split; simpl; lia. Qed.

Lemma cycle_next_at {A} (l : list A) (j : nat) (it : cycle_iter A) (d : A) :
  l ≠ [] →
  cycle_at l j it →
  ∃ it', cycle_next it = Some (nth (j `mod` length l)%nat l d, it') ∧
         cycle_at l (S j) it'.
Proof.
  intros Hl (p & Hp & Hmod & Hpass & Hsaved).
  assert (Hlen : (0 < length l)%nat) by (destruct l; simpl; [done | lia]).
  destruct (decide (p = length l)) as [-> | Hne].
  - (* the pass is over: restart from the saved copy *)
    rewrite Nat.Div0.mod_same in Hmod.
    unfold cycle_next. rewrite Hpass, drop_all, Hsaved.
    destruct l as [| c r]; [done |].
    eexists. split.
    + rewrite <- Hmod. reflexivity.
    + exists 1%nat. split; [simpl; lia |]. split; [| split; reflexivity].
      replace (S j) with (j + 1)%nat by lia.
      rewrite (Nat.Div0.add_mod j 1), <- Hmod.
      rewrite Nat.add_0_l, Nat.Div0.mod_mod. reflexivity.
  - assert (Hlt : (p < length l)%nat) by lia.
    rewrite (Nat.mod_small p) in Hmod by lia.
    destruct (lookup_lt_is_Some_2 l p Hlt) as [c Hc].
    unfold cycle_next. rewrite Hpass, (drop_S l c p Hc).
    eexists. split.
    + rewrite <- Hmod. f_equal. f_equal.
      symmetry. apply nth_lookup_Some with (d := d) in Hc. exact Hc.
    + exists (S p). split; [lia |]. split; [| split; [reflexivity | exact Hsaved]].
      replace (S p) with (p + 1)%nat by lia.
      replace (S j) with (j + 1)%nat by lia.
      rewrite (Nat.Div0.add_mod p 1), (Nat.Div0.add_mod j 1).
      rewrite <- Hmod, (Nat.mod_small p) by lia. reflexivity.
Qed.

Section Theory.
Context {F : Type} `{PyFloat F}.
Variable rejects : list (call F) → call F → option string.

Implicit Types (h : gmap loc (pyobj F)) (tr cs : list (call F)).
Implicit Types (w : World F) (ss : list (series F)).

(** ** Issuing calls *)

Lemma issue_app cs1 cs2 w :
  issue rejects (cs1 ++ cs2) w =
  (issue rejects cs1;;; issue rejects cs2) w.
Proof.
  revert w. induction cs1 as [| c cs1 IH]; intros w; simpl.
  - reflexivity.
  - unfold bind. destruct (perform rejects c w) as [[[] | e] w1].
    + rewrite IH. reflexivity.
    + reflexivity.
Qed.

(** Whatever the collaborator answers, issuing calls leaves the heap alone
    and logs a prefix of the calls: all of them if no call raised, and up to
    the raising call otherwise.  The first call is always made. *)
Lemma issue_spec cs h tr :
  ∃ r cs',
    issue rejects cs (mkWorld h tr) = (r, mkWorld h (tr ++ cs')) ∧
    cs' `prefix_of` cs ∧
    (r = Ok tt → cs' = cs) ∧
    (r = Ok tt ∨ ∃ msg, r = Raise (CollaboratorError msg)) ∧
    ((∀ t c, rejects t c = None) → r = Ok tt) ∧
    head cs' = head cs.
Proof.
  revert tr. induction cs as [| c cs IH]; intros tr; simpl.
  - exists (Ok tt), []. rewrite app_nil_r. repeat split; auto.
  - unfold bind, perform; simpl.
    destruct (rejects tr c) as [msg |] eqn:Hrej.
    + exists (Raise (CollaboratorError msg)), [c]. repeat split.
      * exists cs. reflexivity.
      * discriminate.
      * right. eauto.
      * intros Hacc. rewrite Hacc in Hrej. discriminate.
    + destruct (IH (tr ++ [c]))
        as (r & cs' & Hrun & Hpre & Hok & Hexn & Hacc & _).
      exists r, (c :: cs'). rewrite Hrun, <- app_assoc. simpl.
      repeat split; auto.
      * apply prefix_cons. exact Hpre.
      * intros Hr. rewrite (Hok Hr). reflexivity.
Qed.

(** ** The loop of [bar_subplot] issues [loop_calls] *)

Lemma py_getitem_series h tr d s :
  read_series h d = Some s →
  py_getitem d "values" (mkWorld h tr) = (Ok (s_values s), mkWorld h tr) ∧
  py_getitem d "errors" (mkWorld h tr) = (Ok (s_errors s), mkWorld h tr) ∧
  py_getitem d "label" (mkWorld h tr) = (Ok (s_label s), mkWorld h tr).
Proof.
  unfold read_series, py_getitem. destruct d as [| | | | l]; try discriminate.
  simpl. destruct (h !! l) as [[items | entries] |]; try discriminate.
  destruct (entries !! "values"%string) as [v |]; [| discriminate].
  destruct (entries !! "errors"%string) as [e |]; [| discriminate].
  destruct (entries !! "label"%string) as [lb |]; [| discriminate].
  simpl. intros [= <-]. auto.
Qed.

Lemma bar_loop_issue h ax x bar_width ds ss :
  Forall2 (λ d s, read_series h d = Some s) ds ss →
  ∀ j colors hatches offset tr,
    cycle_at palette j colors →
    cycle_at hatch_list j hatches →
    bar_loop rejects ax x bar_width ds colors hatches offset (mkWorld h tr) =
    issue rejects (loop_calls ax x bar_width ss j offset) (mkWorld h tr).
Proof.
  induction 1 as [| d s ds ss Hd _ IH]; intros j colors hatches offset tr Hc Hh.
  - reflexivity.
  - simpl.
    destruct (cycle_next_at palette j colors ""%string) as (c' & -> & Hc');
      [done | exact Hc |].
    destruct (cycle_next_at hatch_list j hatches ""%string) as (h' & -> & Hh');
      [done | exact Hh |].
    destruct (py_getitem_series h tr d s Hd) as (Hv & He & Hl).
    unfold bind at 1. rewrite Hv.
    unfold bind at 1. rewrite He.
    unfold bind at 1. rewrite Hl.
    unfold bind at 1 2. simpl length.
    destruct (perform rejects _ (mkWorld h tr)) as [[[] | e] w1] eqn:Hp.
    + unfold perform in Hp. simpl in Hp.
      destruct (rejects tr _); [discriminate |].
      injection Hp as <-. apply IH; assumption.
    + reflexivity.
Qed.

(** ** [bar_subplot] issues [subplot_calls] *)

Lemma group_at_inv h xtick_labels data labels ss :
  group_at h xtick_labels data = Some (labels, ss) →
  ∃ xl dl ds,
    xtick_labels = VRef xl ∧ data = VRef dl ∧
    h !! xl = Some (OList labels) ∧ h !! dl = Some (OList ds) ∧
    Forall2 (λ d s, read_series h d = Some s) ds ss.
Proof.
  unfold group_at.
  destruct xtick_labels as [| | | | xl]; try discriminate.
  destruct data as [| | | | dl]; try discriminate.
  destruct (h !! xl) as [[labels' |] |] eqn:Hxl; try discriminate.
  destruct (h !! dl) as [[ds |] |] eqn:Hdl; try discriminate.
  destruct (mapM (read_series h) ds) as [ss' |] eqn:Hss; [| discriminate].
  simpl. intros [= <- <-]. exists xl, dl, ds.
  repeat split; auto. apply mapM_Some. exact Hss.
Qed.

Lemma axis_calls_issue ax xlabel ylabel xtick_labels x w :
  (match xlabel with
   | Some s => perform rejects (ax_set_xlabel ax s)
   | None => ret tt
   end;;;
   match ylabel with
   | Some s => perform rejects (ax_set_ylabel ax s)
   | None => ret tt
   end;;;
   perform rejects (ax_set_xticks ax x);;;
   perform rejects (ax_set_xticklabels ax xtick_labels);;;
   perform rejects (ax_tick_params ax "both" 0);;;
   perform rejects (ax_grid ax false "x")) w =
  issue rejects (axis_calls ax xlabel ylabel xtick_labels x) w.
Proof.
  unfold axis_calls. destruct xlabel, ylabel; simpl;
    unfold bind, ret;
    repeat match goal with
    | |- context [perform rejects ?c ?w] =>
        destruct (perform rejects c w) as [[[] | ?] ?]; try reflexivity
    end.
Qed.

Lemma bar_subplot_issue h tr ax xlabel ylabel xtick_labels data ws labels ss :
  group_at h xtick_labels data = Some (labels, ss) →
  ss ≠ [] →
  bar_subplot rejects ax xlabel ylabel xtick_labels data ws (mkWorld h tr) =
  issue rejects
    (subplot_calls ax xlabel ylabel xtick_labels (length labels) ss ws)
    (mkWorld h tr).
Proof.
  intros Hg Hne.
  destruct (group_at_inv _ _ _ _ _ Hg)
    as (xl & dl & ds & -> & -> & Hxl & Hdl & Hds).
  assert (Hlen : length ds = length ss) by (eapply Forall2_length; eassumption).
  assert (Hnz : (Z.of_nat (length ds) =? 0) = false).
  { apply Z.eqb_neq. destruct ss; [done | simpl in Hlen; lia]. }
  unfold bar_subplot, subplot_calls.
  unfold bind at 1. unfold py_len at 1. simpl heap. rewrite Hxl.
  unfold bind at 1. unfold py_len at 1. simpl heap. rewrite Hdl.
  unfold bind at 1. unfold truediv. rewrite Hnz. unfold ret at 1.
  unfold bind at 1. unfold py_iter. simpl heap. rewrite Hdl.
  rewrite issue_app. unfold bind at 1 7.
  rewrite (bar_loop_issue h ax _ _ ds ss Hds 0)
    by (apply cycle_at_fresh).
  rewrite Hlen.
  destruct (issue rejects _ (mkWorld h tr)) as [[[] | e] w1]; [| reflexivity].
  apply axis_calls_issue.
Qed.

(** On an empty [data] the division [width_scale/nb_catgs] raises, and
    nothing has been logged. *)
Lemma bar_subplot_empty h tr ax xlabel ylabel xtick_labels data ws labels :
  group_at h xtick_labels data = Some (labels, []) →
  bar_subplot rejects ax xlabel ylabel xtick_labels data ws (mkWorld h tr) =
  (Raise ZeroDivisionError, mkWorld h tr).
Proof.
  intros Hg.
  destruct (group_at_inv _ _ _ _ _ Hg)
    as (xl & dl & ds & -> & -> & Hxl & Hdl & Hds).
  apply Forall2_nil_inv_r in Hds as ->.
  unfold bar_subplot.
  unfold bind at 1. unfold py_len at 1. simpl heap. rewrite Hxl.
  unfold bind at 1. unfold py_len at 1. simpl heap. rewrite Hdl.
  reflexivity.
Qed.

(** The run of [bar_subplot] on a group of at least one series. *)
Lemma bar_subplot_spec h tr ax xlabel ylabel xtick_labels data ws labels ss :
  group_at h xtick_labels data = Some (labels, ss) →
  ss ≠ [] →
  ∃ r cs,
    bar_subplot rejects ax xlabel ylabel xtick_labels data ws (mkWorld h tr)
      = (r, mkWorld h (tr ++ cs)) ∧
    cs `prefix_of`
      subplot_calls ax xlabel ylabel xtick_labels (length labels) ss ws ∧
    (r = Ok tt →
     cs = subplot_calls ax xlabel ylabel xtick_labels (length labels) ss ws) ∧
    (r = Ok tt ∨ ∃ msg, r = Raise (CollaboratorError msg)) ∧
    ((∀ t c, rejects t c = None) → r = Ok tt) ∧
    head cs =
      head (subplot_calls ax xlabel ylabel xtick_labels (length labels) ss ws).
Proof.
  intros Hg Hne. rewrite (bar_subplot_issue _ _ _ _ _ _ _ _ _ _ Hg Hne).
  apply issue_spec.
Qed.

Lemma new_calls_app h h' tr cs :
  new_calls (mkWorld h tr) (mkWorld h' (tr ++ cs)) = cs.
Proof. unfold new_calls. simpl. apply drop_app_length. Qed.

(** ** The bars among the calls *)

Lemma bars_of_app cs1 cs2 : bars_of (cs1 ++ cs2) = bars_of cs1 ++ bars_of cs2.
Proof. apply omap_app. Qed.

Lemma bars_of_axis_calls ax xlabel ylabel (xtick_labels : value F) x :
  bars_of (axis_calls ax xlabel ylabel xtick_labels x) = [].
Proof. destruct xlabel, ylabel; reflexivity. Qed.

Lemma bars_of_subplot_calls ax xlabel ylabel xtick_labels N ss ws :
  bars_of (subplot_calls ax xlabel ylabel xtick_labels N ss ws) =
  bars_of
    (loop_calls ax (arange (Z.of_nat N))
       (fdiv ws (of_int (Z.of_nat (length ss)))) ss 0
       (fdiv (fmul (fdiv ws (of_int (Z.of_nat (length ss))))
                (of_int (1 - Z.of_nat (length ss)))) (of_int 2))).
Proof.
  unfold subplot_calls. rewrite bars_of_app, bars_of_axis_calls.
  apply app_nil_r.
Qed.

(** The [k]-th bar call carries the base positions shifted by the offset
    after [k] additions of the bar width. *)
Lemma bar_x_loop_calls ax x bar_width ss j offset :
  arg_x <$> bars_of (loop_calls ax x bar_width ss j offset) =
  (λ k, shift x (Nat.iter k (λ o, fadd o bar_width) offset))
    <$> seq 0 (length ss).
Proof.
  revert j offset. induction ss as [| s ss IH]; intros j offset; simpl.
  - reflexivity.
  - f_equal. rewrite IH, <- fmap_S_seq, <- list_fmap_compose.
    apply list_fmap_ext. intros _ k _. simpl. f_equal. symmetry.
    exact (Nat.iter_succ_r k (λ o, fadd o bar_width) offset).
Qed.

Lemma bar_width_loop_calls ax x (bw : F) ss j offset :
  arg_width <$> bars_of (loop_calls ax x bw ss j offset) =
  replicate (length ss) bw.
Proof.
  revert j offset. induction ss as [| s ss IH]; intros j offset; simpl.
  - reflexivity.
  - f_equal. apply IH.
Qed.

(** The [k]-th bar call carries the entries of the [k]-th series. *)
Lemma bar_series_loop_calls ax x bar_width ss j offset :
  (λ b, Series (arg_label b) (arg_height b) (arg_yerr b))
    <$> bars_of (loop_calls ax x bar_width ss j offset) = ss.
Proof.
  revert j offset. induction ss as [| [lb v e] ss IH]; intros j offset; simpl.
  - reflexivity.
  - f_equal. apply IH.
Qed.

Local Arguments nth : simpl never.
Local Arguments Nat.modulo : simpl never.


End Theory.

(** ** What a computation may do to the world *)

Section Effects.
Context {F : Type} `{PyFloat F}.
Variable rejects : list (call F) → call F → option string.
Variable figsize : list F.
Variable P : call F → Prop.

Lemma logs_only_ret {A} (a : A) : logs_only P (ret a).
Proof. intros w. split; [reflexivity |]. exists []. by rewrite app_nil_r. Qed.

Lemma logs_only_raise {A} (e : exn) : logs_only P (raise (A := A) e).
Proof. intros w. split; [reflexivity |]. exists []. by rewrite app_nil_r. Qed.

Lemma logs_only_bind {A B} (m : Py F A) (k : A → Py F B) :
  logs_only P m → (∀ a, logs_only P (k a)) → logs_only P (bind m k).
Proof.
  intros Hm Hk w. unfold bind.
  destruct (Hm w) as (Hheap & cs & Htrace & Hcs).
  destruct (m w) as [[a | e] w1]; simpl in *.
  - destruct (Hk a w1) as (Hheap' & cs' & Htrace' & Hcs').
    split; [congruence |].
    exists (cs ++ cs'). rewrite Htrace', Htrace, app_assoc.
    split; [reflexivity | by apply Forall_app].
  - split; [assumption |]. exists cs. auto.
Qed.

Lemma logs_only_perform (c : call F) : P c → logs_only P (perform rejects c).
Proof.
  intros Hc w. unfold perform. destruct (rejects (trace w) c); simpl;
    (split; [reflexivity |]); exists [c]; auto.
Qed.

Lemma logs_only_py_len (v : value F) : logs_only P (py_len v).
Proof.
  intros w. unfold py_len.
  destruct v as [| | | | l]; try apply logs_only_raise; try apply logs_only_ret.
  destruct (heap w !! l) as [[|] |];
    try apply logs_only_raise; apply logs_only_ret.
Qed.

Lemma logs_only_py_iter (v : value F) : logs_only P (py_iter v).
Proof.
  intros w. unfold py_iter.
  destruct v as [| | | | l]; try apply logs_only_raise; try apply logs_only_ret.
  destruct (heap w !! l) as [[|] |];
    try apply logs_only_raise; apply logs_only_ret.
Qed.

Lemma logs_only_py_getitem (d : value F) key : logs_only P (py_getitem d key).
Proof.
  intros w. unfold py_getitem.
  destruct d as [| | | | l]; try apply logs_only_raise.
  destruct (heap w !! l) as [[| entries] |]; try apply logs_only_raise.
  destruct (entries !! key); [apply logs_only_ret | apply logs_only_raise].
Qed.

Lemma logs_only_truediv (x : F) n : logs_only P (truediv x n).
Proof.
  unfold truediv. destruct (n =? 0);
    [apply logs_only_raise | apply logs_only_ret].
Qed.

Hypothesis P_bar : ∀ ax args, P (ax_bar ax args).

Lemma logs_only_bar_loop ax x bw data colors hatches offset :
  logs_only P (bar_loop rejects ax x bw data colors hatches offset).
Proof.
  revert colors hatches offset.
  induction data as [| d data IH]; intros colors hatches offset; simpl.
  - apply logs_only_ret.
  - destruct (cycle_next colors) as [[color colors'] |];
      [| apply logs_only_ret].
    destruct (cycle_next hatches) as [[hatch hatches'] |];
      [| apply logs_only_ret].
    repeat (apply logs_only_bind;
            [first [apply logs_only_py_getitem
                   | apply logs_only_perform, P_bar] | intros ?]).
    apply IH.
Qed.

Hypothesis P_axes : ∀ c, is_subplots c = false → no_savefig c → P c.

Lemma logs_only_bar_subplot ax xlabel ylabel xtick_labels data ws :
  logs_only P (bar_subplot rejects ax xlabel ylabel xtick_labels data ws).
Proof.
  unfold bar_subplot.
  apply logs_only_bind; [apply logs_only_py_len | intros n].
  apply logs_only_bind; [apply logs_only_py_len | intros m].
  apply logs_only_bind; [apply logs_only_truediv | intros bw].
  apply logs_only_bind; [apply logs_only_py_iter | intros items].
  apply logs_only_bind; [apply logs_only_bar_loop | intros _].
  apply logs_only_bind.
  { destruct xlabel; [apply logs_only_perform, P_axes; done
                     | apply logs_only_ret]. }
  intros _. apply logs_only_bind.
  { destruct ylabel; [apply logs_only_perform, P_axes; done
                     | apply logs_only_ret]. }
  intros _.
  repeat (apply logs_only_bind;
          [apply logs_only_perform, P_axes; done | intros _]).
  apply logs_only_perform, P_axes; done.
Qed.

End Effects.

Section Runs.
Context {F : Type} `{PyFloat F}.
Variable rejects : list (call F) → call F → option string.
Variable figsize : list F.

Lemma perform_accepted (c : call F) w :
  (∀ t c, rejects t c = None) →
  perform rejects c w = (Ok tt, mkWorld (heap w) (trace w ++ [c])).
Proof. intros Hacc. unfold perform. by rewrite Hacc. Qed.

Lemma savefigs_of_app (cs1 cs2 : list (call F)) :
  savefigs_of (cs1 ++ cs2) = savefigs_of cs1 ++ savefigs_of cs2.
Proof. apply omap_app. Qed.

Lemma savefigs_of_no_savefig (cs : list (call F)) :
  Forall no_savefig cs → savefigs_of cs = [].
Proof.
  induction 1 as [| c cs Hc _ IH]; [reflexivity |].
  unfold savefigs_of in *. destruct c; simpl; try assumption. destruct Hc.
Qed.

Lemma bars_of_prefix (cs1 cs2 : list (call F)) :
  cs1 `prefix_of` cs2 → bars_of cs1 `prefix_of` bars_of cs2.
Proof. intros [k ->]. rewrite bars_of_app. by eexists. Qed.

End Runs.

(** ** The example of the script *)

(** [example_bar_plot] builds the heap [survey_heap], returns, and asks for
    the two files of the figure (binary64, any [figsize]). *)
Example example_bar_plot_runs :
  let run := example_bar_plot (F := float) accepting [] empty_world in
  run.1 = Ok tt ∧
  heap run.2 = survey_heap ∧
  group_at (heap run.2) (VRef 1%positive) (VRef 8%positive) =
    Some (survey_labels, survey_series) ∧
  savefigs_of (trace run.2) =
    [Join (Dir ".") "example_bar_plot.pdf";
     Join (Dir ".") "example_bar_plot.png"].
Proof. vm_compute. repeat split; reflexivity. Qed.

(** ** The bars a run of [bar_subplot] draws *)

Section Bars.
Context {F : Type} `{PyFloat F}.
Variable rejects : list (call F) → call F → option string.

(** On a group read off the heap, the heap is left as it was, the bars drawn
    are the first of those of [loop_calls]: all of them when the call
    returns, which it does as soon as the collaborator accepts every call
    and there is a series. *)
Lemma bar_subplot_bars h tr ax xlabel ylabel xtick_labels data ws labels ss :
  group_at h xtick_labels data = Some (labels, ss) →
  let w := mkWorld h tr in
  let run := bar_subplot rejects ax xlabel ylabel xtick_labels data ws w in
  let bw := fdiv ws (of_int (Z.of_nat (length ss))) in
  let expected :=
    bars_of
      (loop_calls ax (arange (Z.of_nat (length labels))) bw ss 0
         (fdiv (fmul bw (of_int (1 - Z.of_nat (length ss)))) (of_int 2))) in
  heap run.2 = h ∧
  bars_of (new_calls w run.2) `prefix_of` expected ∧
  (run.1 = Ok tt → bars_of (new_calls w run.2) = expected) ∧
  (ss ≠ [] → (∀ t c, rejects t c = None) → run.1 = Ok tt) ∧
  (ss = [] → run = (Raise ZeroDivisionError, w)).
Proof.
  intros Hg w run bw expected.
  destruct (decide (ss = [])) as [-> | Hne].
  - assert (Hrun : run = (Raise ZeroDivisionError, w)).
    { eapply bar_subplot_empty. exact Hg. }
    rewrite Hrun. simpl. unfold new_calls, w. simpl. rewrite drop_all.
    repeat split; first [done | apply prefix_nil].
  - destruct (bar_subplot_spec rejects h tr ax xlabel ylabel _ _ ws _ _ Hg Hne)
      as (r & cs & Hrun & Hpre & Hok & _ & Hacc & _).
    fold w in Hrun. fold run in Hrun. rewrite Hrun. simpl.
    unfold w. rewrite new_calls_app.
    unfold expected, bw. rewrite <- bars_of_subplot_calls with
      (xlabel := xlabel) (ylabel := ylabel) (xtick_labels := xtick_labels).
    repeat split.
    + by apply bars_of_prefix.
    + intros Hr. by rewrite (Hok Hr).
    + intros _. exact Hacc.
    + done.
Qed.

End Bars.

Lemma fmap_prefix {A B} (f : A → B) (l1 l2 : list A) :
  l1 `prefix_of` l2 → f <$> l1 `prefix_of` f <$> l2.
Proof. intros [k ->]. rewrite fmap_app. by eexists. Qed.

(** ** Exact arithmetic *)

Open Scope Qc_scope.

(** After [k] additions of the bar width the running offset is
    [offset + k * bar_width]. *)
Lemma running_offset_Qc (bw offset : Qc) (k : nat) :
  Nat.iter k (λ o, fadd o bw) offset = offset + Qc_of_Z (Z.of_nat k) * bw.
Proof.
  induction k as [| k IH].
  - change (Z.of_nat 0) with 0%Z. rewrite Z2Qc_inj_0.
    cbn [Nat.iter nat_rect]. ring.
  - rewrite Nat2Z.inj_succ, <- Z.add_1_r, Z2Qc_inj_add, Z2Qc_inj_1.
    rewrite Nat.iter_succ, IH. cbn [fadd Qc_PyFloat]. ring.
Qed.


Close Scope Qc_scope.

(** * The layout in binary64 *)

#[local] Set Warnings "-inexact-float".

(** ** The geometry of a run *)

Section Geometry.
Context {F : Type} `{PyFloat F}.
Variable rejects : list (call F) → call F → option string.



End Geometry.

Lemma float_neq (x y : float) : Prim2SF x ≠ Prim2SF y → x ≠ y.
Proof. by intros Hne ->. Qed.

(** ** Positions *)

(** C1, as stated, fails in binary64: with twelve series, two tick labels
    and [width_scale = 0.7] the call returns, and the position it emits for
    series 6 in slot 1 is [1.0291666666666666], while
    [i + initial_offset + j * bar_width], evaluated in binary64 in either
    association, is [1.0291666666666668]; the arrays emitted are not those
    of the closed form. *)
Lemma closed_form_fails_in_binary64 :
  let w := mkWorld (dozen_heap (F := float)) [] in
  let run :=
    bar_subplot accepting 0%nat None None (VRef 1%positive) (VRef 5%positive)
      0.7%float w in
  let emitted := arg_x <$> bars_of (new_calls w run.2) in
  let bar_width := (0.7 / 12)%float in
  let initial_offset := (bar_width * (1 - 12) / 2)%float in
  let closed_form (j i : float) := (i + initial_offset + j * bar_width)%float in
  let closed_form' (j i : float) := (i + (initial_offset + j * bar_width))%float in
  run.1 = Ok tt ∧
  emitted !! 6%nat = Some [0.02916666666666666%float; 1.0291666666666666%float] ∧
  closed_form 6%float 1%float = 1.0291666666666668%float ∧
  closed_form' 6%float 1%float = 1.0291666666666668%float ∧
  1.0291666666666666%float ≠ 1.0291666666666668%float ∧
  emitted ≠ (λ j, [closed_form j 0%float; closed_form j 1%float]) <$>
              [0; 1; 2; 3; 4; 5; 6; 7; 8; 9; 10; 11]%float ∧
  emitted ≠ (λ j, [closed_form' j 0%float; closed_form' j 1%float]) <$>
              [0; 1; 2; 3; 4; 5; 6; 7; 8; 9; 10; 11]%float.
Proof.
  assert (Hne : 1.0291666666666666%float ≠ 1.0291666666666668%float).
  { apply float_neq. vm_compute. discriminate. }
  split; [vm_compute; reflexivity |].
  split; [vm_compute; reflexivity |].
  split; [vm_compute; reflexivity |].
  split; [vm_compute; reflexivity |].
  split; [exact Hne |].
  split; intros Heq;
    apply (f_equal (λ l, default 0%float (l !! 6%nat ≫= (.!! 1%nat)))) in Heq;
    vm_compute in Heq; exact (Hne Heq).
Qed.

(** C1, amended: on [N] tick labels and [M >= 1] series, in whatever
    arithmetic the floats live (binary64 included), with
    [bar_width = width_scale / M] and
    [initial_offset = bar_width * (1 - M) / 2], the position array of the
    [j]-th [ax.bar] call is [[0, ..., N-1]] shifted by the running offset
    [(...((initial_offset + bar_width) + bar_width)...) + bar_width], with
    [j] additions: bar [j] of slot [i] is centred at [i] plus that offset.
    The calls are made in input order, the [j]-th carrying the label,
    values and errors of the [j]-th series and the width [bar_width].  Every
    array that is emitted is the expected one, whatever the collaborator
    answers, and all [M] are emitted when the call returns.  In exact
    arithmetic the running offset is [initial_offset + j * bar_width]. *)
Theorem bar_subplot_running_positions :
  (∀ (F : Type) (PF : PyFloat F)
     (rejects : list (call F) → call F → option string)
     h tr ax xlabel ylabel xtick_labels data (width_scale : F) labels ss,
     group_at h xtick_labels data = Some (labels, ss) →
     (1 ≤ length ss)%nat →
     let N := length labels in
     let M := length ss in
     let bar_width := fdiv width_scale (of_int (Z.of_nat M)) in
     let initial_offset :=
       fdiv (fmul bar_width (of_int (1 - Z.of_nat M))) (of_int 2) in
     let running (j : nat) :=
       Nat.iter j (λ offset, fadd offset bar_width) initial_offset in
     let positions :=
       (λ j : nat, (λ i : Z, fadd (of_int i) (running j))
                     <$> seqZ 0 (Z.of_nat N)) <$> seq 0 M in
     let w := mkWorld h tr in
     let run :=
       bar_subplot rejects ax xlabel ylabel xtick_labels data width_scale w in
     let bars := bars_of (new_calls w run.2) in
     ((∀ t c, rejects t c = None) → run.1 = Ok tt) ∧
     arg_x <$> bars `prefix_of` positions ∧
     (run.1 = Ok tt →
      arg_x <$> bars = positions ∧
      arg_width <$> bars = replicate M bar_width ∧
      (λ b, Series (arg_label b) (arg_height b) (arg_yerr b)) <$> bars
        = ss)) ∧
  (∀ (bar_width initial_offset : Qc) (j : nat),
     Nat.iter j (λ offset, fadd offset bar_width) initial_offset =
     (initial_offset + Qc_of_Z (Z.of_nat j) * bar_width)%Qc).
Proof.
  split; [| exact running_offset_Qc].
  intros F PF rejects h tr ax xlabel ylabel xtick_labels data width_scale
    labels ss Hg HM N M bar_width initial_offset running positions w run bars.
  destruct (bar_subplot_bars rejects h tr ax xlabel ylabel _ _ width_scale
              _ _ Hg) as (_ & Hpre & Hok & Hacc & _).
  fold w in Hpre, Hok, Hacc. fold run in Hpre, Hok, Hacc.
  fold bars in Hpre, Hok.
  assert (Hx :
    arg_x <$> bars_of
      (loop_calls ax (arange (Z.of_nat N)) bar_width ss 0 initial_offset)
    = positions).
  { rewrite bar_x_loop_calls. reflexivity. }
  split; [| split].
  - apply Hacc. destruct ss; simpl in HM; [lia | done].
  - rewrite <- Hx. apply fmap_prefix. exact Hpre.
  - intros Hr. specialize (Hok Hr). rewrite Hok. split; [exact Hx |].
    split; [apply bar_width_loop_calls | apply bar_series_loop_calls].
Qed.

Lemma bar_subplot_running_positions_witness :
  let w := mkWorld (survey_heap (F := float)) [] in
  let run :=
    bar_subplot accepting 0%nat None None (VRef 1%positive) (VRef 8%positive)
      0.7%float w in
  let bars := bars_of (new_calls w run.2) in
  run.1 = Ok tt ∧
  arg_x <$> bars =
    [[-0.175; 0.825; 1.825; 2.825; 3.825];
     [0.175; 1.175; 2.175; 3.175; 4.175]]%float ∧
  arg_width <$> bars = [0.35; 0.35]%float.
Proof.
  destruct (proj1 bar_subplot_running_positions float _ accepting
              survey_heap [] 0%nat None None (VRef 1%positive)
              (VRef 8%positive) 0.7%float survey_labels survey_series)
    as (Hacc & _ & Hok).
  - vm_compute. reflexivity.
  - simpl. lia.
  - assert (Hr := Hacc (λ _ _, eq_refl)).
    destruct (Hok Hr) as (Hx & Hw & _).
    split; [exact Hr |]. split.
    + cbv zeta in Hx. rewrite Hx. vm_compute. reflexivity.
    + cbv zeta in Hw. rewrite Hw. vm_compute. reflexivity.
Defined.

Open Scope Qc_scope.

(** ** The bars of one slot *)












Close Scope Qc_scope.

(** ** Slots in binary64 *)





Open Scope Qc_scope.



Close Scope Qc_scope.


(** ** No validation of the series' shapes *)

(** C3, as stated, fails: on five tick labels and a series of three values
    the call does not fail before rendering.  With a collaborator that
    accepts every call it returns normally, and with one that raises on
    [ax.bar] the exception is the collaborator's and is raised by the first
    [ax.bar] call. *)
Lemma mismatch_reaches_rendering :
  let h := mismatch_heap (F := float) in
  let w := mkWorld h [] in
  let call_with rejects :=
    bar_subplot rejects 0%nat None None (VRef 1%positive) (VRef 5%positive)
      (literal (7 # 10)) w in
  list_length_at h (VRef 1%positive) = Some 5%nat ∧
  (s_values <$> read_series h (VRef 4%positive)) ≫= list_length_at h
    = Some 3%nat ∧
  ¬ fails_before_rendering w (call_with accepting) ∧
  (call_with accepting).1 = Ok tt ∧
  ¬ fails_before_rendering w (call_with rejects_bars) ∧
  (call_with rejects_bars).1 = Raise (CollaboratorError "shape mismatch") ∧
  length (bars_of (new_calls w (call_with rejects_bars).2)) = 1%nat.
Proof.
  repeat split; try (vm_compute; reflexivity).
  - intros [_ Hnone]. vm_compute in Hnone. discriminate.
  - intros [_ Hnone]. vm_compute in Hnone. discriminate.
Qed.

(** C3, amended: [bar_subplot] compares no lengths.  Given at least one
    series, whatever the lengths of its values and errors, the first call it
    makes is [ax.bar] for the first series, with one position per tick label
    and the series' values and errors as supplied; the call as a whole
    either returns or raises the collaborator's exception, and it returns
    when the collaborator accepts every call, drawing every series as
    supplied. *)
Theorem bar_subplot_no_shape_check {F} `{PyFloat F}
    (rejects : list (call F) → call F → option string)
    h tr ax xlabel ylabel xtick_labels data (width_scale : F) labels s ss :
  group_at h xtick_labels data = Some (labels, s :: ss) →
  let w := mkWorld h tr in
  let run :=
    bar_subplot rejects ax xlabel ylabel xtick_labels data width_scale w in
  (∃ b rest,
     new_calls w run.2 = ax_bar ax b :: rest ∧
     length (arg_x b) = length labels ∧
     arg_height b = s_values s ∧
     arg_yerr b = s_errors s) ∧
  (run.1 = Ok tt ∨ ∃ msg, run.1 = Raise (CollaboratorError msg)) ∧
  ((∀ t c, rejects t c = None) → run.1 = Ok tt) ∧
  (run.1 = Ok tt →
   (λ b, Series (arg_label b) (arg_height b) (arg_yerr b))
     <$> bars_of (new_calls w run.2) = s :: ss).
Proof.
  intros Hg w run.
  destruct (bar_subplot_spec rejects h tr ax xlabel ylabel _ _ width_scale
              _ _ Hg) as (r & cs & Hrun & Hpre & Hok & Hexn & Hacc & Hhead);
    [done |].
  fold w in Hrun. fold run in Hrun. rewrite Hrun. simpl.
  unfold w. rewrite new_calls_app.
  split; [| split; [exact Hexn | split; [exact Hacc |]]].
  - unfold subplot_calls in Hhead. cbn [loop_calls app head] in Hhead.
    destruct cs as [| c rest]; [discriminate |].
    injection Hhead as ->. eexists _, rest. split; [reflexivity |].
    cbn [arg_x arg_height arg_yerr]. split; [| done].
    unfold shift, arange. rewrite length_fmap, length_seqZ. lia.
  - intros Hr. rewrite (Hok Hr), bars_of_subplot_calls.
    apply bar_series_loop_calls.
Qed.

Lemma bar_subplot_no_shape_check_witness :
  let w := mkWorld (mismatch_heap (F := float)) [] in
  let run :=
    bar_subplot accepting 0%nat None None (VRef 1%positive) (VRef 5%positive)
      (literal (7 # 10)) w in
  run.1 = Ok tt ∧
  (λ b, Series (arg_label b) (arg_height b) (arg_yerr b))
    <$> bars_of (new_calls w run.2) =
  [Series (VStr "short") (VRef 2%positive) (VRef 3%positive)].
Proof.
  destruct (bar_subplot_no_shape_check accepting mismatch_heap [] 0%nat None
              None (VRef 1%positive) (VRef 5%positive) (literal (7 # 10))
              (VStr <$> ["a"; "b"; "c"; "d"; "e"]%string)
              (Series (VStr "short") (VRef 2%positive) (VRef 3%positive)) [])
    as (_ & _ & Hacc & Hok).
  - vm_compute. reflexivity.
  - split; [apply Hacc; reflexivity |].
    apply Hok, Hacc. reflexivity.
Defined.

(** ** Colours and hatches *)



(** ** Numeric scenarios *)

#[local] Set Warnings "-inexact-float".

Lemma shift_zero_Qc (x : list Z) : shift x 0%Qc = Qc_of_Z <$> x.
Proof.
  unfold shift. apply list_fmap_ext. intros _ i _. simpl. ring.
Qed.

(** ** A single series *)

Lemma binary_round_aux_sign sx mx ex lx :
  binary_round_aux prec emax sx mx ex lx ≠ S754_zero (negb sx).
Proof.
  unfold binary_round_aux.
  destruct (shr_fexp prec emax mx ex lx) as [mrs' e'].
  destruct (shr_fexp prec emax _ e' loc_Exact) as [mrs'' e''].
  destruct (shr_m mrs''); [| destruct (_ <=? _) |]; try discriminate.
  by destruct sx.
Qed.

(** The conversion of a natural number is never [-0.0]. *)
Lemma of_uint63_not_neg_zero n : Prim2SF (of_uint63 n) ≠ S754_zero true.
Proof.
  rewrite of_uint63_spec. unfold binary_normalize.
  pose proof (Uint63.to_Z_bounded n) as Hn.
  destruct (Uint63.to_Z n) as [| m | m]; [discriminate | | lia].
  unfold binary_round. destruct (shl_align _ _ _) as [mz ez].
  apply (binary_round_aux_sign false).
Qed.

(** Adding a zero of either sign changes nothing but [-0.0]. *)
Lemma add_signed_zero x z :
  Prim2SF x ≠ S754_zero true → signed_zero z → PrimFloat.add x z = x.
Proof.
  intros Hx [s Hz]. apply Prim2SF_inj. rewrite add_spec, Hz.
  unfold SF64add, SFadd.
  destruct (Prim2SF x) as [sx | sx | | sx mx ex]; try reflexivity.
  destruct sx, s; try reflexivity. done.
Qed.

Lemma finite_cases x :
  PrimFloat.is_finite x = true →
  (∃ s, Prim2SF x = S754_zero s) ∨ (∃ s m e, Prim2SF x = S754_finite s m e).
Proof.
  unfold PrimFloat.is_finite, Prim2SF. intros Hf.
  apply negb_true_iff, orb_false_iff in Hf as [-> Hinf].
  destruct (is_zero x); [eauto |]. rewrite Hinf.
  destruct (Z.frexp x) as [r exp].
  destruct (shr_fexp _ _ _ _ _) as [shr e'].
  destruct (shr_m shr); eauto.
Qed.

Lemma mul_zero_signed_zero x :
  PrimFloat.is_finite x = true →
  signed_zero (PrimFloat.mul x (float_of_int 0)).
Proof.
  intros Hx. unfold signed_zero. rewrite mul_spec.
  replace (Prim2SF (float_of_int 0)) with (S754_zero false)
    by (vm_compute; reflexivity).
  destruct (finite_cases x Hx) as [[s ->] | (s & m & e & ->)]; simpl; eauto.
Qed.

Lemma div_two_signed_zero z :
  signed_zero z → signed_zero (PrimFloat.div z (float_of_int 2)).
Proof.
  intros [s Hz]. unfold signed_zero. rewrite div_spec, Hz.
  replace (Prim2SF (float_of_int 2))
    with (S754_finite false 4503599627370496 (-51))
    by (vm_compute; reflexivity).
  simpl. eauto.
Qed.

(** With one series and a finite bar width the positions are unshifted. *)
Lemma single_series_positions (bar_width : float) (N : Z) :
  PrimFloat.is_finite bar_width = true →
  let offset :=
    fdiv (fmul bar_width (of_int (1 - Z.of_nat 1))) (of_int 2) in
  (λ i, fadd (of_int i) offset) <$> seqZ 0 N =
  (λ i, of_uint63 (Uint63.of_Z i)) <$> seqZ 0 N.
Proof.
  intros Hfin offset. apply list_fmap_ext. intros k i Hi.
  apply lookup_seqZ in Hi as [-> Hk].
  cbn [fadd of_int binary64_PyFloat]. unfold float_of_int at 1.
  destruct (Z.ltb_spec (0 + Z.of_nat k) 0) as [Hneg | _]; [lia |].
  apply add_signed_zero; [apply of_uint63_not_neg_zero |].
  apply div_two_signed_zero, mul_zero_signed_zero, Hfin.
Qed.

(** C5, as stated, fails in binary64 for a [width_scale] that is not
    finite: with tick labels [["A", "B"]], one series and
    [width_scale = inf] the call returns, the bar width is [inf], the
    offset [inf * 0 / 2] is [nan] and the position array is [[nan, nan]],
    not [[0, 1]]; the same arrays come out of [width_scale = nan]. *)
Lemma infinite_width_scale_shifts_to_nan :
  let w := mkWorld (single_heap (F := float)) [] in
  let run (width_scale : float) :=
    bar_subplot accepting 0%nat None None (VRef 1%positive)
      (VRef 5%positive) width_scale w in
  let bars width_scale := bars_of (new_calls w (run width_scale).2) in
  (run infinity).1 = Ok tt ∧
  arg_x <$> bars infinity = [[nan; nan]] ∧
  arg_width <$> bars infinity = [infinity] ∧
  (run nan).1 = Ok tt ∧
  arg_x <$> bars nan = [[nan; nan]] ∧
  [[nan; nan]] ≠ [[0%float; 1%float]].
Proof.
  repeat split; try (vm_compute; reflexivity).
  intros Heq. apply (f_equal (λ l, Prim2SF <$> l !! 0%nat ≫= (.!! 1%nat)))
    in Heq.
  vm_compute in Heq. discriminate Heq.
Qed.

(** C5, amended.  With exactly one series, for every [N], in binary64:
    whenever the bar width [width_scale / 1] is finite, the position array
    is [[0.0, 1.0, ..., N-1]], the conversions of the integers, unshifted,
    and the call returns if the collaborator accepts the calls; a
    [width_scale] of [inf] or [nan] is excluded, it turns every position
    into [nan].  With two tick labels and [width_scale = 0.7] the positions
    are [[0.0, 1.0]] and the bar width is [0.7].  In exact arithmetic the
    positions are [[0, ..., N-1]] and the width is [width_scale] for every
    [width_scale]. *)
Theorem bar_subplot_single_series_finite :
  (∀ (rejects : list (call float) → call float → option string)
     h tr ax xlabel ylabel xtick_labels data (width_scale : float) labels s,
     group_at h xtick_labels data = Some (labels, [s]) →
     PrimFloat.is_finite (width_scale / 1)%float = true →
     let w := mkWorld h tr in
     let run :=
       bar_subplot rejects ax xlabel ylabel xtick_labels data width_scale w in
     let bars := bars_of (new_calls w run.2) in
     ((∀ t c, rejects t c = None) → run.1 = Ok tt) ∧
     (run.1 = Ok tt →
      arg_x <$> bars =
        [(λ i, of_uint63 (Uint63.of_Z i))
           <$> seqZ 0 (Z.of_nat (length labels))] ∧
      arg_width <$> bars = [(width_scale / 1)%float])) ∧
  (∀ (rejects : list (call float) → call float → option string)
     h tr ax xlabel ylabel xtick_labels data labels s,
     group_at h xtick_labels data = Some (labels, [s]) →
     length labels = 2%nat →
     let w := mkWorld h tr in
     let run :=
       bar_subplot rejects ax xlabel ylabel xtick_labels data 0.7%float w in
     let bars := bars_of (new_calls w run.2) in
     ((∀ t c, rejects t c = None) → run.1 = Ok tt) ∧
     (run.1 = Ok tt →
      arg_x <$> bars = [[0%float; 1%float]] ∧
      arg_width <$> bars = [0.7%float])) ∧
  (∀ (rejects : list (call Qc) → call Qc → option string)
     h tr ax xlabel ylabel xtick_labels data (width_scale : Qc) labels s,
     group_at h xtick_labels data = Some (labels, [s]) →
     let w := mkWorld h tr in
     let run :=
       bar_subplot rejects ax xlabel ylabel xtick_labels data width_scale w in
     let bars := bars_of (new_calls w run.2) in
     ((∀ t c, rejects t c = None) → run.1 = Ok tt) ∧
     (run.1 = Ok tt →
      arg_x <$> bars = [Qc_of_Z <$> seqZ 0 (Z.of_nat (length labels))] ∧
      arg_width <$> bars = [width_scale])).
Proof.
  assert (Hfloat :
    ∀ (rejects : list (call float) → call float → option string)
     h tr ax xlabel ylabel xtick_labels data (width_scale : float) labels s,
     group_at h xtick_labels data = Some (labels, [s]) →
     PrimFloat.is_finite (width_scale / 1)%float = true →
     let w := mkWorld h tr in
     let run :=
       bar_subplot rejects ax xlabel ylabel xtick_labels data width_scale w in
     let bars := bars_of (new_calls w run.2) in
     ((∀ t c, rejects t c = None) → run.1 = Ok tt) ∧
     (run.1 = Ok tt →
      arg_x <$> bars =
        [(λ i, of_uint63 (Uint63.of_Z i))
           <$> seqZ 0 (Z.of_nat (length labels))] ∧
      arg_width <$> bars = [(width_scale / 1)%float])).
  { intros rejects h tr ax xlabel ylabel xtick_labels data width_scale
      labels s Hg Hfin w run bars.
    destruct (bar_subplot_bars rejects h tr ax xlabel ylabel _ _ width_scale
                _ _ Hg) as (_ & _ & Hok & Hacc & _).
    fold w in Hok, Hacc. fold run in Hok, Hacc. fold bars in Hok.
    split; [by apply Hacc |].
    intros Hr. rewrite (Hok Hr).
    cbn [length loop_calls bars_of omap list_omap fmap list_fmap arg_x
         arg_width].
    unfold shift, arange.
    change (fdiv width_scale (of_int (Z.of_nat 1)))
      with (width_scale / 1)%float.
    split; [| reflexivity]. f_equal.
    exact (single_series_positions _ _ Hfin). }
  split; [exact Hfloat |]. split.
  - intros rejects h tr ax xlabel ylabel xtick_labels data labels s Hg HN
      w run bars.
    destruct (Hfloat rejects h tr ax xlabel ylabel xtick_labels data
                0.7%float labels s Hg) as (Hacc & Hok).
    { vm_compute. reflexivity. }
    split; [exact Hacc |]. intros Hr. specialize (Hok Hr).
    rewrite HN in Hok. exact Hok.
  - intros rejects h tr ax xlabel ylabel xtick_labels data width_scale
      labels s Hg w run bars.
    destruct (bar_subplot_bars rejects h tr ax xlabel ylabel _ _ width_scale
                _ _ Hg) as (_ & _ & Hok & Hacc & _).
    fold w in Hok, Hacc. fold run in Hok, Hacc. fold bars in Hok.
    split; [by apply Hacc |].
    intros Hr. rewrite (Hok Hr).
    cbn [length loop_calls bars_of omap list_omap fmap list_fmap arg_x
         arg_width].
    change (Z.of_nat 1) with 1%Z. change (1 - 1)%Z with 0%Z.
    cbn [fdiv fmul of_int Qc_PyFloat].
    rewrite Z2Qc_inj_0, Z2Qc_inj_1, Z2Qc_inj_2.
    rewrite (right_id 1%Qc Qcdiv width_scale), Qcmult_0_r.
    replace (0 / 2)%Qc with 0%Qc by (by apply Qc_is_canon).
    by rewrite shift_zero_Qc.
Qed.

Lemma bar_subplot_single_series_finite_witness :
  let w := mkWorld (single_heap (F := float)) [] in
  let run :=
    bar_subplot accepting 0%nat None None (VRef 1%positive) (VRef 5%positive)
      0.3%float w in
  let bars := bars_of (new_calls w run.2) in
  run.1 = Ok tt ∧
  arg_x <$> bars = [[0%float; 1%float]] ∧
  arg_width <$> bars = [0.3%float].
Proof.
  destruct (proj1 bar_subplot_single_series_finite accepting single_heap []
              0%nat None None (VRef 1%positive) (VRef 5%positive) 0.3%float
              [VStr "A"; VStr "B"]
              (Series (VStr "s") (VRef 2%positive) (VRef 3%positive)))
    as (Hacc & Hok).
  - vm_compute. reflexivity.
  - vm_compute. reflexivity.
  - assert (Hr := Hacc (λ _ _, eq_refl)).
    split; [exact Hr | exact (Hok Hr)].
Defined.








(** ** Determinism *)

(** C7: the calls [bar_subplot] makes depend on its arguments and on the
    objects they refer to, not on what was drawn before nor on the
    collaborator: two calls on the same inputs that both return have made
    the same calls, position arrays, colours and hatches included, be it
    in two unrelated worlds or one after the other; and with a collaborator
    that accepts every call, calling twice gives the same outcome twice. *)
Theorem bar_subplot_deterministic {F} `{PyFloat F}
    (rejects rejects' : list (call F) → call F → option string)
    h tr tr' ax xlabel ylabel xtick_labels data (width_scale : F) labels ss :
  group_at h xtick_labels data = Some (labels, ss) →
  let call_in rej w :=
    bar_subplot rej ax xlabel ylabel xtick_labels data width_scale w in
  let w := mkWorld h tr in
  let w' := mkWorld h tr' in
  let run := call_in rejects w in
  let run' := call_in rejects' w' in
  let again := call_in rejects run.2 in
  (run.1 = Ok tt → run'.1 = Ok tt →
   new_calls w' run'.2 = new_calls w run.2) ∧
  (run.1 = Ok tt → again.1 = Ok tt →
   new_calls run.2 again.2 = new_calls w run.2) ∧
  ((∀ t c, rejects t c = None) →
   again.1 = run.1 ∧ new_calls run.2 again.2 = new_calls w run.2).
Proof.
  intros Hg call_in w w' run run' again.
  destruct (decide (ss = [])) as [-> | Hne].
  - assert (Hrun : ∀ rej t, call_in rej (mkWorld h t) =
                            (Raise ZeroDivisionError, mkWorld h t)).
    { intros rej t. eapply bar_subplot_empty. exact Hg. }
    unfold again, run, run', w, w'. rewrite !Hrun. simpl. rewrite !Hrun.
    simpl. split; [discriminate |]. split; [discriminate |].
    intros _. split; [reflexivity |].
    unfold new_calls. simpl. by rewrite !drop_all.
  - destruct (bar_subplot_spec rejects h tr ax xlabel ylabel _ _ width_scale
                _ _ Hg Hne) as (r & cs & Hrun & _ & Hok & _ & Hacc & _).
    destruct (bar_subplot_spec rejects' h tr' ax xlabel ylabel _ _
                width_scale _ _ Hg Hne)
      as (r' & cs' & Hrun' & _ & Hok' & _ & _ & _).
    destruct (bar_subplot_spec rejects h (tr ++ cs) ax xlabel ylabel _ _
                width_scale _ _ Hg Hne)
      as (r2 & cs2 & Hrun2 & _ & Hok2 & _ & Hacc2 & _).
    unfold again, run, run', w, w', call_in.
    rewrite Hrun, Hrun'. simpl. rewrite Hrun2. simpl.
    rewrite !new_calls_app.
    split; [| split].
    + intros Hr Hr'. by rewrite (Hok Hr), (Hok' Hr').
    + intros Hr Hr2. by rewrite (Hok Hr), (Hok2 Hr2).
    + intros Hall. rewrite (Hacc Hall), (Hacc2 Hall).
      split; [done |]. by rewrite (Hok (Hacc Hall)), (Hok2 (Hacc2 Hall)).
Qed.

Lemma bar_subplot_deterministic_witness :
  let call_in w :=
    bar_subplot (F := float) accepting 0%nat None None (VRef 1%positive)
      (VRef 8%positive) (literal (7 # 10)) w in
  let w := mkWorld survey_heap [] in
  (call_in w).1 = Ok tt ∧
  (call_in (call_in w).2).1 = Ok tt ∧
  new_calls (call_in w).2 (call_in (call_in w).2).2 =
  new_calls w (call_in w).2.
Proof.
  destruct (bar_subplot_deterministic accepting accepting survey_heap [] []
              0%nat None None (VRef 1%positive) (VRef 8%positive)
              (literal (7 # 10)) survey_labels survey_series)
    as (_ & _ & Hacc).
  - vm_compute. reflexivity.
  - destruct (Hacc (λ _ _, eq_refl)) as [Hsame Hcalls].
    split; [reflexivity |]. split; [reflexivity | exact Hcalls].
Defined.

(** ** Frame *)

Section Frame.
Context {F : Type} `{PyFloat F}.
Variable rejects : list (call F) → call F → option string.
Variable figsize : list F.

Lemma logs_only_subplots (P : call F → Prop) :
  P plt_subplots → logs_only P (subplots rejects).
Proof.
  intros HP w. unfold subplots.
  destruct (logs_only_perform rejects P plt_subplots HP w) as (Hh & cs & Ht).
  destruct (perform rejects plt_subplots w) as [[[] | e] w1]; simpl in *; eauto.
Qed.

(** Up to the two [plt.savefig] calls, [bar_plot] writes no file. *)
Lemma logs_only_bar_plot_drawing xlabel ylabel xtick_labels data
    set_figsize legend_kwargs (hide_legend : bool) ws :
  logs_only no_savefig
    (let* fig := subplots rejects in
     bar_subplot rejects fig xlabel ylabel xtick_labels data ws;;;
     (if negb hide_legend then perform rejects (ax_legend fig legend_kwargs)
      else ret tt);;;
     perform rejects (fig_set_size_inches fig set_figsize);;;
     perform rejects (fig_tight_layout fig (1 # 10))).
Proof.
  apply logs_only_bind; [by apply logs_only_subplots | intros fig].
  apply logs_only_bind; [by apply logs_only_bar_subplot | intros _].
  apply logs_only_bind.
  { destruct hide_legend; simpl;
      [apply logs_only_ret | by apply logs_only_perform]. }
  intros _.
  apply logs_only_bind; [by apply logs_only_perform | intros _].
  by apply logs_only_perform.
Qed.

Lemma bar_plot_split xlabel ylabel xtick_labels data fig_name dest_dir
    set_figsize legend_kwargs (hide_legend : bool) ws w :
  bar_plot rejects figsize xlabel ylabel xtick_labels data fig_name dest_dir
    set_figsize legend_kwargs hide_legend ws w =
  ((let* fig := subplots rejects in
    bar_subplot rejects fig xlabel ylabel xtick_labels data ws;;;
    (if negb hide_legend then perform rejects (ax_legend fig legend_kwargs)
     else ret tt);;;
    perform rejects
      (fig_set_size_inches fig
         match set_figsize with None => figsize | Some size => size end);;;
    perform rejects (fig_tight_layout fig (1 # 10)));;;
   perform rejects (plt_savefig (Join dest_dir (fig_name ++ ".pdf")));;;
   perform rejects (plt_savefig (Join dest_dir (fig_name ++ ".png")))) w.
Proof.
  unfold bar_plot, bind.
  destruct (subplots rejects w) as [[fig | e] w1]; [| reflexivity].
  destruct (bar_subplot rejects fig _ _ _ _ _ w1) as [[[] | e] w2];
    [| reflexivity].
  destruct (if negb hide_legend then _ else _) as [[[] | e] w3];
    [| reflexivity].
  destruct (perform rejects (fig_set_size_inches _ _) w3) as [[[] | e] w4];
    [| reflexivity].
  destruct (perform rejects (fig_tight_layout _ _) w4) as [[[] | e] w5];
    reflexivity.
Qed.

Lemma logs_only_bar_plot xlabel ylabel xtick_labels data fig_name dest_dir
    set_figsize legend_kwargs hide_legend ws :
  logs_only (λ _, True)
    (bar_plot rejects figsize xlabel ylabel xtick_labels data fig_name
       dest_dir set_figsize legend_kwargs hide_legend ws).
Proof.
  unfold bar_plot.
  apply logs_only_bind; [by apply logs_only_subplots | intros fig].
  apply logs_only_bind; [by apply logs_only_bar_subplot | intros _].
  apply logs_only_bind.
  { destruct hide_legend; simpl;
      [apply logs_only_ret | by apply logs_only_perform]. }
  intros _.
  repeat (apply logs_only_bind; [by apply logs_only_perform | intros _]).
  by apply logs_only_perform.
Qed.

Lemma logs_only_world {A} (P : call F → Prop) (m : Py F A) w :
  logs_only P m →
  (m w).2 = mkWorld (heap w) (trace w ++ new_calls w (m w).2) ∧
  Forall P (new_calls w (m w).2).
Proof.
  intros Hm. destruct (Hm w) as (Hheap & cs & Htrace & Hcs).
  unfold new_calls. rewrite Htrace, drop_app_length.
  split; [| exact Hcs].
  destruct (m w).2 as [h' t']. simpl in *. congruence.
Qed.

End Frame.

(** C8: neither [bar_subplot] nor [bar_plot] changes an object of the
    caller: whatever the arguments, the heap and the collaborator's answers,
    and whether the call returns or raises, the world after the call is the
    world before it with the calls made appended to the log.  The tick
    labels, the series dicts and the lists they hold are as they were, and
    the call returns [None]: no value it computed is handed back or
    stored. *)
Theorem bar_plot_frame {F} `{PyFloat F}
    (rejects : list (call F) → call F → option string) (figsize : list F)
    (w : World F) ax xlabel ylabel xtick_labels data fig_name dest_dir
    set_figsize legend_kwargs hide_legend (width_scale : F) :
  let sub :=
    bar_subplot rejects ax xlabel ylabel xtick_labels data width_scale w in
  let plot :=
    bar_plot rejects figsize xlabel ylabel xtick_labels data fig_name
      dest_dir set_figsize legend_kwargs hide_legend width_scale w in
  sub.2 = mkWorld (heap w) (trace w ++ new_calls w sub.2) ∧
  plot.2 = mkWorld (heap w) (trace w ++ new_calls w plot.2) ∧
  group_at (heap sub.2) xtick_labels data =
    group_at (heap w) xtick_labels data ∧
  group_at (heap plot.2) xtick_labels data =
    group_at (heap w) xtick_labels data.
Proof.
  intros sub plot.
  assert (Hsub : sub.2 = mkWorld (heap w) (trace w ++ new_calls w sub.2)).
  { apply (logs_only_world (λ _, True)). by apply logs_only_bar_subplot. }
  assert (Hplot : plot.2 = mkWorld (heap w) (trace w ++ new_calls w plot.2)).
  { apply (logs_only_world (λ _, True)). apply logs_only_bar_plot. }
  split; [exact Hsub |]. split; [exact Hplot |].
  split; [rewrite Hsub | rewrite Hplot]; reflexivity.
Qed.

(** ** Output files *)

Lemma pdf_png_distinct (dest_dir : path) (fig_name : string) :
  Join dest_dir (fig_name ++ ".pdf") ≠ Join dest_dir (fig_name ++ ".png").
Proof.
  intros [= Heq]. induction fig_name as [| a s IH]; simpl in Heq.
  - discriminate.
  - injection Heq as Heq. exact (IH Heq).
Qed.

(** C9: a call to [bar_plot] that returns has asked [plt.savefig] for
    exactly two files, [dest_dir / "{fig_name}.pdf"] and then
    [dest_dir / "{fig_name}.png"], two different names in the directory
    the caller gave; a call that raises has asked for none of them, for the
    first, or for both, and for no other file.  The call returns whenever
    the inputs are a group of at least one series and the collaborator
    accepts every call. *)
Theorem bar_plot_output_files {F} `{PyFloat F}
    (rejects : list (call F) → call F → option string) (figsize : list F)
    (w : World F) xlabel ylabel xtick_labels data fig_name dest_dir
    set_figsize legend_kwargs hide_legend (width_scale : F) :
  let run :=
    bar_plot rejects figsize xlabel ylabel xtick_labels data fig_name
      dest_dir set_figsize legend_kwargs hide_legend width_scale w in
  let pdf := Join dest_dir (fig_name ++ ".pdf") in
  let png := Join dest_dir (fig_name ++ ".png") in
  (run.1 = Ok tt → savefigs_of (new_calls w run.2) = [pdf; png]) ∧
  savefigs_of (new_calls w run.2) `prefix_of` [pdf; png] ∧
  pdf ≠ png ∧
  (∀ labels ss,
     group_at (heap w) xtick_labels data = Some (labels, ss) →
     ss ≠ [] →
     (∀ t c, rejects t c = None) →
     run.1 = Ok tt).
Proof.
  intros run pdf png.
  assert (Hrun : ∃ r cs,
    run = (r, mkWorld (heap w) (trace w ++ cs)) ∧
    savefigs_of cs `prefix_of` [pdf; png] ∧
    (r = Ok tt → savefigs_of cs = [pdf; png])).
  { unfold run. rewrite bar_plot_split. fold pdf png.
    set (drawing := let* fig := subplots rejects in _).
    destruct (logs_only_world no_savefig drawing w) as (Hw1 & Hcs).
    { apply logs_only_bar_plot_drawing. }
    apply savefigs_of_no_savefig in Hcs.
    unfold bind, perform.
    destruct (drawing w) as [[[] | e] w1]; simpl in Hw1, Hcs.
    - rewrite Hw1. cbn [heap trace].
      destruct (rejects _ (plt_savefig pdf)).
      + exists (Raise (CollaboratorError s)),
          (new_calls w w1 ++ [plt_savefig pdf]).
        split; [by rewrite app_assoc |].
        rewrite savefigs_of_app, Hcs.
        split; [by exists [png] | discriminate].
      + cbn [heap trace].
        destruct (rejects _ (plt_savefig png)) as [msg |].
        * exists (Raise (CollaboratorError msg)),
            (new_calls w w1 ++ [plt_savefig pdf; plt_savefig png]).
          split; [by rewrite <- !app_assoc |].
          rewrite savefigs_of_app, Hcs. split; [done | discriminate].
        * exists (Ok tt),
            (new_calls w w1 ++ [plt_savefig pdf; plt_savefig png]).
          split; [by rewrite <- !app_assoc |].
          rewrite savefigs_of_app, Hcs. done.
    - rewrite Hw1. eexists _, _. split; [reflexivity |].
      rewrite Hcs. split; [apply prefix_nil | discriminate]. }
  split; [| split; [| split; [apply pdf_png_distinct |]]].
  - destruct Hrun as (r & cs & -> & _ & Hok). simpl.
    destruct w as [h tr]. rewrite new_calls_app. exact Hok.
  - destruct Hrun as (r & cs & -> & Hpre & _). simpl.
    destruct w as [h tr]. rewrite new_calls_app. exact Hpre.
  - clear Hrun. intros labels ss Hg Hne Hacc. unfold run, bar_plot.
    destruct w as [h tr]. simpl in Hg.
    unfold bind at 1. unfold subplots. rewrite (perform_accepted _ _ _ Hacc).
    simpl.
    destruct (bar_subplot_spec rejects h (tr ++ [plt_subplots])
                (length (filter is_subplots tr)) xlabel ylabel _ _
                width_scale _ _ Hg Hne)
      as (r & cs & Hsub & _ & _ & _ & Hr & _).
    unfold bind at 1. rewrite Hsub, (Hr Hacc).
    unfold bind.
    destruct hide_legend; simpl; unfold ret;
      rewrite ?(perform_accepted _ _ _ Hacc); reflexivity.
Qed.

Lemma bar_plot_output_files_witness :
  let w := mkWorld (survey_heap (F := float)) [] in
  let run :=
    bar_plot (F := float) accepting [] (Some "Age group"%string) None
      (VRef 1%positive) (VRef 8%positive) "example_bar_plot" (Dir ".")
      None None false (literal (7 # 10)) w in
  run.1 = Ok tt ∧
  savefigs_of (new_calls w run.2) =
  [Join (Dir ".") "example_bar_plot.pdf"; Join (Dir ".") "example_bar_plot.png"].
Proof.
  destruct (bar_plot_output_files (F := float) accepting []
              (mkWorld survey_heap []) (Some "Age group"%string) None
              (VRef 1%positive) (VRef 8%positive) "example_bar_plot"
              (Dir ".") None None false (literal (7 # 10)))
    as (Hok & _ & _ & Hacc).
  assert (Hr := Hacc survey_labels survey_series
                  ltac:(vm_compute; reflexivity) ltac:(discriminate)
                  (λ _ _, eq_refl)).
  split; [exact Hr | exact (Hok Hr)].
Defined.

(** ** The empty group *)

(** C10: called with an empty list of series, [bar_subplot] raises
    [ZeroDivisionError] at [width_scale/nb_catgs] and leaves the world as it
    was, no call having been made to the collaborator; on a group read off
    the heap this is the only way it raises [ZeroDivisionError], and it does
    so exactly when there is no series. *)
Theorem bar_subplot_empty_group {F} `{PyFloat F}
    (rejects : list (call F) → call F → option string)
    h tr ax xlabel ylabel xtick_labels data (width_scale : F) labels ss :
  group_at h xtick_labels data = Some (labels, ss) →
  let w := mkWorld h tr in
  let run :=
    bar_subplot rejects ax xlabel ylabel xtick_labels data width_scale w in
  (ss = [] → run = (Raise ZeroDivisionError, w) ∧ new_calls w run.2 = []) ∧
  (run.1 = Raise ZeroDivisionError ↔ ss = []).
Proof.
  intros Hg w run.
  assert (Hempty : ss = [] → run = (Raise ZeroDivisionError, w)).
  { intros ->. eapply bar_subplot_empty. exact Hg. }
  split; [| split].
  - intros Hss. rewrite (Hempty Hss). split; [reflexivity |].
    unfold new_calls. simpl. apply drop_all.
  - intros Hr. destruct (decide (ss = [])) as [Hss | Hne]; [exact Hss |].
    destruct (bar_subplot_spec rejects h tr ax xlabel ylabel _ _ width_scale
                _ _ Hg Hne) as (r & cs & Hrun & _ & _ & Hexn & _).
    fold w in Hrun. fold run in Hrun. rewrite Hrun in Hr. simpl in Hr.
    subst r. destruct Hexn as [| [msg ?]]; discriminate.
  - intros Hss. by rewrite (Hempty Hss).
Qed.

Lemma bar_subplot_empty_group_witness :
  let w := mkWorld (empty_group_heap (F := float)) [] in
  bar_subplot accepting 0%nat None None (VRef 1%positive) (VRef 2%positive)
    (literal (7 # 10)) w = (Raise ZeroDivisionError, w).
Proof.
  destruct (bar_subplot_empty_group accepting empty_group_heap [] 0%nat None
              None (VRef 1%positive) (VRef 2%positive) (literal (7 # 10))
              [VStr "A"; VStr "B"] [])
    as (Hempty & _).
  - vm_compute. reflexivity.
  - exact (proj1 (Hempty eq_refl)).
Defined.

(** * Further properties of [bar_subplot] and [bar_plot] *)

(** ** Ill-formed items *)

Section BadItems.
Context {F : Type} `{PyFloat F}.
Variable rejects : list (call F) → call F → option string.

(** A well-formed item has no error, and conversely. *)
Lemma item_error_read_series h (d : value F) :
  item_error h d = None ↔ is_Some (read_series h d).
Proof.
  unfold item_error, read_series. destruct d as [| | | | l];
    try (split; [discriminate | by intros [? ?]]).
  destruct (h !! l) as [[items | entries] |];
    try (split; [discriminate | by intros [? ?]]).
  destruct (entries !! "values"%string), (entries !! "errors"%string),
    (entries !! "label"%string); simpl;
    (split; [first [discriminate | by eauto] | first [done | by intros [? ?]]]).
Qed.

(** The three subscripts of the loop body raise the item's error. *)
Lemma py_getitem_item_error {A} h tr (d : value F) e
    (k : value F → value F → value F → Py F A) :
  item_error h d = Some e →
  (let* values := py_getitem d "values" in
   let* errors := py_getitem d "errors" in
   let* label := py_getitem d "label" in
   k values errors label) (mkWorld h tr) = (Raise e, mkWorld h tr).
Proof.
  unfold item_error, bind, py_getitem. destruct d as [| | | | l]; simpl;
    try (by intros [= <-]).
  destruct (h !! l) as [[items | entries] |] eqn:Hl; try (by intros [= <-]).
  destruct (entries !! "values"%string) eqn:Hv; [| by intros [= <-]].
  simpl. rewrite Hl.
  destruct (entries !! "errors"%string) eqn:He; [| by intros [= <-]].
  simpl. rewrite Hl.
  destruct (entries !! "label"%string); [discriminate | by intros [= <-]].
Qed.

(** The loop draws the series before the first ill-formed item, then raises
    that item's error. *)
Lemma bar_loop_bad_item h ax x bw ds ss d rest e :
  Forall2 (λ d s, read_series h d = Some s) ds ss →
  item_error h d = Some e →
  ∀ j colors hatches offset tr,
    cycle_at palette j colors →
    cycle_at hatch_list j hatches →
    bar_loop rejects ax x bw (ds ++ d :: rest) colors hatches offset
      (mkWorld h tr) =
    (issue rejects (loop_calls ax x bw ss j offset);;; raise e)
      (mkWorld h tr).
Proof.
  intros Hds He. induction Hds as [| d0 s ds ss Hd _ IH];
    intros j colors hatches offset tr Hc Hh.
  - simpl.
    destruct (cycle_next_at palette j colors ""%string) as (c' & -> & _);
      [done | exact Hc |].
    destruct (cycle_next_at hatch_list j hatches ""%string) as (h' & -> & _);
      [done | exact Hh |].
    rewrite (py_getitem_item_error h tr d e _ He). reflexivity.
  - simpl.
    destruct (cycle_next_at palette j colors ""%string) as (c' & -> & Hc');
      [done | exact Hc |].
    destruct (cycle_next_at hatch_list j hatches ""%string) as (h' & -> & Hh');
      [done | exact Hh |].
    destruct (py_getitem_series h tr d0 s Hd) as (Hv & He' & Hl).
    unfold bind at 1. rewrite Hv.
    unfold bind at 1. rewrite He'.
    unfold bind at 1. rewrite Hl.
    unfold bind at 1 2 3.
    destruct (perform rejects _ (mkWorld h tr)) as [[[] | e0] w1] eqn:Hp.
    + unfold perform in Hp. simpl in Hp.
      destruct (rejects tr _); [discriminate |].
      injection Hp as <-. rewrite (IH _ _ _ _ _ Hc' Hh'). reflexivity.
    + reflexivity.
Qed.

Lemma loop_calls_bars ax x (bw : F) ss j offset :
  loop_calls ax x bw ss j offset =
  ax_bar ax <$> bars_of (loop_calls ax x bw ss j offset).
Proof.
  revert j offset. induction ss as [| s ss IH]; intros j offset;
    [reflexivity |].
  cbn [loop_calls]. unfold bars_of in *. cbn [omap list_omap fmap list_fmap].
  f_equal. apply IH.
Qed.

(** A prefix of a list of [ax.bar] calls is a list of [ax.bar] calls. *)
Lemma prefix_of_bars ax (cs : list (call F)) (bs : list (bar_args F)) :
  cs `prefix_of` ax_bar ax <$> bs →
  cs = ax_bar ax <$> bars_of cs ∧ bars_of cs `prefix_of` bs.
Proof.
  revert bs. induction cs as [| c cs IH]; intros bs Hpre.
  - split; [reflexivity | apply prefix_nil].
  - destruct bs as [| b bs]; [by apply prefix_nil_inv in Hpre |].
    simpl in Hpre. apply prefix_cons_inv_1 in Hpre as Hc.
    apply prefix_cons_inv_2 in Hpre. subst c.
    destruct (IH bs Hpre) as [Hcs Hbs]. unfold bars_of in *.
    cbn [omap list_omap fmap list_fmap]. split.
    + f_equal. exact Hcs.
    + by apply prefix_cons.
Qed.

End BadItems.

(** X1: when [data] is a list whose item at position [k] is the first that
    is not a dict with the keys ['values'], ['errors'] and ['label'],
    [bar_subplot] never returns: it draws bars for series before that item
    and makes no other call, with the bar width computed from the length of
    the whole list, and, when the collaborator accepts the calls, draws all
    [k] of them and raises [KeyError] for the first key missing in the order
    values, errors, label, or [TypeError] if the item is not a dict.  The
    heap is left as it was. *)
Theorem bar_subplot_bad_item {F} `{PyFloat F}
    (rejects : list (call F) → call F → option string)
    h tr ax xlabel ylabel xl dl (width_scale : F) labels ds ss d rest e :
  h !! xl = Some (OList labels) →
  h !! dl = Some (OList (ds ++ d :: rest)) →
  mapM (read_series h) ds = Some ss →
  item_error h d = Some e →
  let M := length (ds ++ d :: rest) in
  let bar_width := fdiv width_scale (of_int (Z.of_nat M)) in
  let w := mkWorld h tr in
  let run :=
    bar_subplot rejects ax xlabel ylabel (VRef xl) (VRef dl) width_scale w in
  let bars := bars_of (new_calls w run.2) in
  let drawn := (λ b, Series (arg_label b) (arg_height b) (arg_yerr b)) <$> bars in
  run.1 ≠ Ok tt ∧
  heap run.2 = h ∧
  new_calls w run.2 = ax_bar ax <$> bars ∧
  drawn `prefix_of` ss ∧
  Forall (λ b, arg_width b = bar_width) bars ∧
  ((∀ t c, rejects t c = None) → run.1 = Raise e ∧ drawn = ss).
Proof.
  intros Hxl Hdl Hds He M bar_width w run bars drawn.
  apply mapM_Some in Hds.
  set (offset :=
    fdiv (fmul bar_width (of_int (1 - Z.of_nat M))) (of_int 2)).
  set (x := arange (Z.of_nat (length labels))).
  set (calls := loop_calls ax x bar_width ss 0 offset).
  assert (Hrun : run = (issue rejects calls;;; raise e) w).
  { unfold run, bar_subplot, w.
    unfold bind at 1. unfold py_len at 1. simpl heap. rewrite Hxl.
    unfold bind at 1. unfold py_len at 1. simpl heap. rewrite Hdl.
    assert (Hnz : (Z.of_nat (length (ds ++ d :: rest)) =? 0) = false).
    { apply Z.eqb_neq. rewrite length_app. simpl. lia. }
    unfold bind at 1. unfold truediv. rewrite Hnz. unfold ret at 1.
    unfold bind at 1. unfold py_iter. simpl heap. rewrite Hdl.
    unfold bind at 1.
    rewrite (bar_loop_bad_item rejects h ax _ _ ds ss d rest e Hds He 0)
      by apply cycle_at_fresh.
    fold M bar_width offset x calls. unfold bind.
    destruct (issue rejects calls (mkWorld h tr)) as [[[] | e0] w1];
      reflexivity. }
  destruct (issue_spec rejects calls h tr)
    as (r & cs & Hissue & Hpre & Hok & _ & Hacc & _).
  unfold calls in Hpre. rewrite loop_calls_bars in Hpre.
  apply prefix_of_bars in Hpre as [Hcs Hbpre].
  assert (Hrun' :
    run = (match r with Ok _ => Raise e | Raise e0 => Raise e0 end,
           mkWorld h (tr ++ cs))).
  { rewrite Hrun. unfold bind, w. rewrite Hissue.
    destruct r as [[] |]; reflexivity. }
  unfold drawn, bars. rewrite Hrun'. simpl. unfold w. rewrite new_calls_app.
  split; [by destruct r as [[] |] |]. split; [reflexivity |].
  split; [exact Hcs |]. split.
  { rewrite <- (bar_series_loop_calls ax x bar_width ss 0 offset) at 1.
    by apply fmap_prefix. }
  split.
  { apply (fmap_prefix arg_width) in Hbpre.
    rewrite bar_width_loop_calls in Hbpre.
    apply Forall_forall. intros b Hb.
    assert (Hin : arg_width b ∈ replicate (length ss) bar_width).
    { destruct Hbpre as [k ->]. apply elem_of_app. left.
      by apply list_elem_of_fmap_2. }
    by apply elem_of_replicate in Hin as [-> _]. }
  intros Hall. specialize (Hacc Hall). subst r. split; [reflexivity |].
  rewrite (Hok eq_refl). apply bar_series_loop_calls.
Qed.

Lemma bar_subplot_bad_item_witness :
  let w := mkWorld (broken_heap (F := float)) [] in
  let run :=
    bar_subplot accepting 0%nat None None (VRef 1%positive) (VRef 6%positive)
      (literal (6 # 10)) w in
  run.1 = Raise (KeyError "errors") ∧
  (λ b, Series (arg_label b) (arg_height b) (arg_yerr b))
    <$> bars_of (new_calls w run.2) =
  [Series (VStr "s") (VRef 2%positive) (VRef 3%positive)].
Proof.
  destruct (bar_subplot_bad_item accepting broken_heap [] 0%nat None None
              1%positive 6%positive (literal (6 # 10))
              [VStr "A"; VStr "B"] [VRef 4%positive]
              [Series (VStr "s") (VRef 2%positive) (VRef 3%positive)]
              (VRef 5%positive) [VNone] (KeyError "errors"))
    as (_ & _ & _ & _ & _ & Hacc).
  - vm_compute. reflexivity.
  - vm_compute. reflexivity.
  - vm_compute. reflexivity.
  - vm_compute. reflexivity.
  - exact (Hacc (λ _ _, eq_refl)).
Defined.

(** ** Arguments of the wrong type *)

(** X2: [bar_subplot] raises [TypeError] and makes no call, leaving the
    world as it was, when [xtick_labels] has no [len] (whatever [data] is,
    an empty list included), when [data] has no [len], and when [data] is a
    non-empty string or a non-empty dict rather than a list: iterating it
    yields strings, which cannot be subscripted by ['values']. *)
Theorem bar_subplot_type_errors {F} `{PyFloat F}
    (rejects : list (call F) → call F → option string)
    (w : World F) ax xlabel ylabel xtick_labels data (width_scale : F) :
  let run :=
    bar_subplot rejects ax xlabel ylabel xtick_labels data width_scale w in
  (unsized xtick_labels = true → run = (Raise TypeError, w)) ∧
  (∀ n, py_len xtick_labels w = (Ok n, w) →
        unsized data = true → run = (Raise TypeError, w)) ∧
  (∀ n s, py_len xtick_labels w = (Ok n, w) →
          data = VStr s → s ≠ ""%string → run = (Raise TypeError, w)) ∧
  (∀ n l entries, py_len xtick_labels w = (Ok n, w) →
          data = VRef l → heap w !! l = Some (ODict entries) →
          entries ≠ ∅ → run = (Raise TypeError, w)).
Proof.
  intros run. unfold run, bar_subplot.
  split; [| split; [| split]].
  - intros Hx. destruct xtick_labels; try discriminate; reflexivity.
  - intros n Hn Hd. unfold bind at 1. rewrite Hn.
    destruct data; try discriminate; reflexivity.
  - intros n s Hn -> Hs. unfold bind at 1. rewrite Hn.
    destruct s as [| a s]; [done |].
    unfold bind at 1. simpl py_len. cbv iota beta.
    unfold bind at 1. unfold truediv.
    replace (Z.of_nat (String.length (String a s)) =? 0) with false
      by (symmetry; apply Z.eqb_neq; simpl; lia).
    unfold ret at 1. unfold bind at 1. simpl py_iter. cbv iota beta.
    unfold bind at 1. reflexivity.
  - intros n l entries Hn -> Hl Hne. unfold bind at 1. rewrite Hn.
    unfold bind at 1. unfold py_len. rewrite Hl.
    unfold bind at 1. unfold truediv.
    replace (Z.of_nat (size entries) =? 0) with false.
    2: { symmetry. apply Z.eqb_neq.
         rewrite <- Nat2Z.inj_0, Nat2Z.inj_iff.
         by rewrite map_size_empty_iff. }
    unfold ret at 1. unfold bind at 1. unfold py_iter. rewrite Hl.
    destruct (map_to_list entries) as [| [k v] kvs] eqn:Hkvs.
    { by apply map_to_list_empty_iff in Hkvs. }
    unfold bind at 1. reflexivity.
Qed.

Lemma bar_subplot_type_errors_witness :
  let w := mkWorld (broken_heap (F := float)) [] in
  bar_subplot accepting 0%nat None None (VRef 1%positive) (VRef 7%positive)
    (literal (6 # 10)) w = (Raise TypeError, w) ∧
  bar_subplot accepting 0%nat None None (VInt 3) (VRef 6%positive)
    (literal (6 # 10)) w = (Raise TypeError, w).
Proof.
  split.
  - apply (proj2 (proj2 (proj2
      (bar_subplot_type_errors accepting (mkWorld broken_heap []) 0%nat
         None None (VRef 1%positive) (VRef 7%positive) (literal (6 # 10)))))
      2 7%positive (<["a"%string := VRef 4%positive]> ∅)).
    + reflexivity.
    + reflexivity.
    + vm_compute. reflexivity.
    + apply insert_non_empty.
  - apply (proj1
      (bar_subplot_type_errors accepting (mkWorld broken_heap []) 0%nat
         None None (VInt 3) (VRef 6%positive) (literal (6 # 10)))).
    reflexivity.
Defined.

(** ** The calls [bar_subplot] makes, on any input *)

Lemma nth_mod_elem_of {A} (l : list A) (j : nat) (d : A) :
  l ≠ [] → nth (j `mod` length l)%nat l d ∈ l.
Proof.
  intros Hl.
  assert (Hlt : (j `mod` length l < length l)%nat).
  { apply Nat.mod_upper_bound. by destruct l. }
  destruct (lookup_lt_is_Some_2 l _ Hlt) as [c Hc].
  pose proof Hc as Hn. apply nth_lookup_Some with (d := d) in Hn.
  rewrite Hn. eapply list_elem_of_lookup_2. exact Hc.
Qed.

Section Styled.
Context {F : Type} `{PyFloat F}.
Variable rejects : list (call F) → call F → option string.
Variable ax : handle.

Lemma logs_only_bar_loop_styled x bw data :
  ∀ j colors hatches offset,
    cycle_at palette j colors →
    cycle_at hatch_list j hatches →
    logs_only (drawn_in_style ax)
      (bar_loop rejects ax x bw data colors hatches offset).
Proof.
  induction data as [| d data IH]; intros j colors hatches offset Hc Hh.
  - apply logs_only_ret.
  - simpl.
    destruct (cycle_next_at palette j colors ""%string) as (c' & -> & Hc');
      [done | exact Hc |].
    destruct (cycle_next_at hatch_list j hatches ""%string) as (h' & -> & Hh');
      [done | exact Hh |].
    apply logs_only_bind; [apply logs_only_py_getitem | intros values].
    apply logs_only_bind; [apply logs_only_py_getitem | intros errors].
    apply logs_only_bind; [apply logs_only_py_getitem | intros label].
    apply logs_only_bind; [| intros _; by eapply IH].
    apply logs_only_perform. split; [reflexivity |].
    cbn [house_style arg_fill arg_hatch arg_edgecolor arg_error_kw].
    split; [reflexivity |].
    split; [by apply (nth_mod_elem_of hatch_list) |].
    split; [by apply (nth_mod_elem_of palette) | reflexivity].
Qed.

Lemma logs_only_bar_subplot_styled xlabel ylabel xtick_labels data ws :
  logs_only (drawn_in_style ax)
    (bar_subplot rejects ax xlabel ylabel xtick_labels data ws).
Proof.
  unfold bar_subplot.
  apply logs_only_bind; [apply logs_only_py_len | intros n].
  apply logs_only_bind; [apply logs_only_py_len | intros m].
  apply logs_only_bind; [apply logs_only_truediv | intros bw].
  apply logs_only_bind; [apply logs_only_py_iter | intros items].
  apply logs_only_bind.
  { apply (logs_only_bar_loop_styled _ _ _ 0); apply cycle_at_fresh. }
  intros _. apply logs_only_bind.
  { destruct xlabel; [by apply logs_only_perform | apply logs_only_ret]. }
  intros _. apply logs_only_bind.
  { destruct ylabel; [by apply logs_only_perform | apply logs_only_ret]. }
  intros _.
  repeat (apply logs_only_bind; [by apply logs_only_perform | intros _]).
  by apply logs_only_perform.
Qed.

End Styled.

(** X3: whatever its arguments, the heap and the collaborator's answers,
    and whether it returns or raises, every call [bar_subplot] makes is a
    [bar], [set_xlabel], [set_ylabel], [set_xticks], [set_xticklabels],
    [tick_params] or [grid] call on the axes it was given: it creates no
    figure, draws no legend, resizes nothing and saves no file. *)
Theorem bar_subplot_only_draws_on_ax {F} `{PyFloat F}
    (rejects : list (call F) → call F → option string)
    (w : World F) ax xlabel ylabel xtick_labels data (width_scale : F) :
  let run :=
    bar_subplot rejects ax xlabel ylabel xtick_labels data width_scale w in
  Forall (on_axes ax) (new_calls w run.2).
Proof.
  intros run.
  destruct (logs_only_world (drawn_in_style ax) _ w
              (logs_only_bar_subplot_styled rejects ax xlabel ylabel
                 xtick_labels data width_scale)) as [_ Hcs].
  eapply Forall_impl; [exact Hcs |]. by intros c [? _].
Qed.

(** X10: whatever its arguments, the heap and the collaborator's answers,
    every bar [bar_subplot] draws is unfilled, hatched with a pattern of
    [hatch_list], edged in a colour of [palette], and has the error-bar
    style of the module constants [elinewidth], [capsize] and [capthick]
    (0.5, 1 and 0.5). *)
Theorem bar_subplot_house_style {F} `{PyFloat F}
    (rejects : list (call F) → call F → option string)
    (w : World F) ax xlabel ylabel xtick_labels data (width_scale : F) :
  let run :=
    bar_subplot rejects ax xlabel ylabel xtick_labels data width_scale w in
  Forall
    (λ b, arg_fill b = false ∧
          arg_hatch b ∈ hatch_list ∧
          arg_edgecolor b ∈ palette ∧
          arg_error_kw b =
            [("elinewidth", elinewidth); ("capsize", capsize);
             ("capthick", capthick)]%string)
    (bars_of (new_calls w run.2)).
Proof.
  intros run.
  destruct (logs_only_world (drawn_in_style ax) _ w
              (logs_only_bar_subplot_styled rejects ax xlabel ylabel
                 xtick_labels data width_scale)) as [_ Hcs].
  fold run in Hcs. induction Hcs as [| c cs [_ Hc] _ IH]; [constructor |].
  unfold bars_of in *. destruct c; cbn [omap list_omap]; try exact IH.
  constructor; [| exact IH].
  exact Hc.
Qed.

(** ** The order of the calls *)

(** X4: a call to [bar_subplot] that returns has made, in this order, one
    [ax.bar] call per series, [ax.set_xlabel] if [xlabel] is not [None],
    [ax.set_ylabel] if [ylabel] is not [None], [ax.set_xticks] with
    [[0, ..., N-1]], [ax.set_xticklabels] with the caller's list of labels,
    [ax.tick_params(axis='both', length=0)] and
    [ax.grid(visible=False, axis='x')], and nothing else. *)
Theorem bar_subplot_call_sequence {F} `{PyFloat F}
    (rejects : list (call F) → call F → option string)
    h tr ax xlabel ylabel xtick_labels data (width_scale : F) labels ss :
  group_at h xtick_labels data = Some (labels, ss) →
  let w := mkWorld h tr in
  let run :=
    bar_subplot rejects ax xlabel ylabel xtick_labels data width_scale w in
  let bars := bars_of (new_calls w run.2) in
  run.1 = Ok tt →
  length bars = length ss ∧
  new_calls w run.2 =
    (ax_bar ax <$> bars) ++
    option_list (ax_set_xlabel ax <$> xlabel) ++
    option_list (ax_set_ylabel ax <$> ylabel) ++
    [ax_set_xticks ax (seqZ 0 (Z.of_nat (length labels)));
     ax_set_xticklabels ax xtick_labels;
     ax_tick_params ax "both" 0;
     ax_grid ax false "x"].
Proof.
  intros Hg w run bars Hr.
  destruct (decide (ss = [])) as [-> | Hne].
  { unfold run, w in Hr. erewrite bar_subplot_empty in Hr by exact Hg.
    discriminate. }
  destruct (bar_subplot_spec rejects h tr ax xlabel ylabel _ _ width_scale
              _ _ Hg Hne) as (r & cs & Hrun & _ & Hok & _).
  fold w in Hrun. fold run in Hrun. unfold bars. rewrite Hrun in Hr |- *.
  simpl in Hr |- *. unfold w. rewrite new_calls_app, (Hok Hr).
  rewrite bars_of_subplot_calls. unfold subplot_calls.
  split.
  - rewrite <- (length_fmap arg_width), bar_width_loop_calls.
    apply length_replicate.
  - rewrite <- loop_calls_bars. f_equal.
    unfold axis_calls. by destruct xlabel, ylabel.
Qed.

Lemma bar_subplot_call_sequence_witness :
  let w := mkWorld (survey_heap (F := float)) [] in
  let run :=
    bar_subplot accepting 0%nat None (Some "y"%string) (VRef 1%positive)
      (VRef 8%positive) (literal (7 # 10)) w in
  length (new_calls w run.2) = 7%nat.
Proof.
  destruct (bar_subplot_call_sequence accepting survey_heap [] 0%nat None
              (Some "y"%string) (VRef 1%positive) (VRef 8%positive)
              (literal (7 # 10)) survey_labels survey_series)
    as [Hlen Hcalls].
  - vm_compute. reflexivity.
  - vm_compute. reflexivity.
  - cbv zeta in Hlen, Hcalls |- *.
    rewrite Hcalls, !length_app, length_fmap, Hlen. reflexivity.
Defined.

(** ** The calls [bar_plot] makes *)

Section PlotCalls.
Context {F : Type} `{PyFloat F}.
Variable rejects : list (call F) → call F → option string.
Variable default_figsize : list F.

Lemma perform_run (c : call F) w :
  ∃ r, perform rejects c w = (r, mkWorld (heap w) (trace w ++ [c])) ∧
       (r = Ok tt ∨ ∃ msg, r = Raise (CollaboratorError msg)).
Proof.
  unfold perform. destruct (rejects (trace w) c); eauto.
Qed.

Lemma subplots_run w :
  ∃ r, subplots rejects w = (r, mkWorld (heap w) (trace w ++ [plt_subplots])) ∧
       (r = Ok (length (filter is_subplots (trace w))) ∨
        ∃ msg, r = Raise (CollaboratorError msg)).
Proof.
  unfold subplots, perform. destruct (rejects (trace w) plt_subplots); eauto.
Qed.

(** The run of [bar_plot], step by step. *)
Lemma bar_plot_run xlabel ylabel xtick_labels data fig_name dest_dir
    set_figsize legend_kwargs (hide_legend : bool) ws w :
  let fig := length (filter is_subplots (trace w)) in
  let run :=
    bar_plot rejects default_figsize xlabel ylabel xtick_labels data fig_name
      dest_dir set_figsize legend_kwargs hide_legend ws w in
  let finish :=
    (if hide_legend then [] else [ax_legend fig legend_kwargs]) ++
    [fig_set_size_inches fig (default default_figsize set_figsize);
     fig_tight_layout fig (1 # 10);
     plt_savefig (Join dest_dir (fig_name ++ ".pdf"));
     plt_savefig (Join dest_dir (fig_name ++ ".png"))] in
  (∃ msg, run = (Raise (CollaboratorError msg),
                 mkWorld (heap w) (trace w ++ [plt_subplots]))) ∨
  (∃ e drawing,
     own_exn e ∧ Forall (on_axes fig) drawing ∧
     run = (Raise e,
            mkWorld (heap w) (trace w ++ plt_subplots :: drawing))) ∨
  (∃ r drawing done_calls,
     Forall (on_axes fig) drawing ∧
     done_calls `prefix_of` finish ∧
     (r = Ok tt ∧ done_calls = finish ∨
      ∃ msg, r = Raise (CollaboratorError msg)) ∧
     run = (r, mkWorld (heap w)
                 (trace w ++ plt_subplots :: drawing ++ done_calls))).
Proof.
  intros fig run finish.
  remember run as outcome eqn:Hrun. unfold run, bar_plot in Hrun.
  unfold bind at 1 in Hrun.
  destruct (subplots_run w) as (r0 & Hsub0 & [-> | [msg ->]]);
    rewrite Hsub0 in Hrun; [| left; eauto].
  fold fig in Hrun. right.
  set (w1 := mkWorld (heap w) (trace w ++ [plt_subplots])) in *.
  set (sub := bar_subplot rejects fig xlabel ylabel xtick_labels data ws) in *.
  destruct (logs_only_world (drawn_in_style fig) sub w1) as [Hw2 Hcs].
  { apply logs_only_bar_subplot_styled. }
  assert (Hdrawing : Forall (on_axes fig) (new_calls w1 (sub w1).2)).
  { eapply Forall_impl; [exact Hcs |]. by intros c [? _]. }
  clear Hcs. unfold bind at 1 in Hrun.
  destruct (sub w1) as [r2 w2]. simpl in Hw2, Hdrawing.
  set (drawing := new_calls w1 w2) in *. clearbody drawing. subst w2.
  unfold w1 in Hrun. simpl heap in Hrun. simpl trace in Hrun.
  rewrite <- app_assoc in Hrun. simpl app in Hrun.
  set (t2 := trace w ++ plt_subplots :: drawing) in *.
  destruct r2 as [[] | e].
  2: { destruct e as [| | key | msg].
       - left. exists ZeroDivisionError, drawing. done.
       - left. exists TypeError, drawing. done.
       - left. exists (KeyError key), drawing. done.
       - right. exists (Raise (CollaboratorError msg)), drawing, [].
         rewrite app_nil_r. split; [done |].
         split; [apply prefix_nil |]. split; [eauto | done]. }
  right.
  destruct (issue_spec rejects finish (heap w) t2)
    as (r & done_calls & Hissue & Hpre & Hok & Hexn & _).
  exists r, drawing, done_calls. split; [exact Hdrawing |].
  split; [exact Hpre |]. split.
  { destruct Hexn as [-> | Hexn]; [left; auto | right; exact Hexn]. }
  rewrite Hrun. unfold t2 in Hissue.
  rewrite <- app_assoc in Hissue. simpl app in Hissue.
  rewrite <- Hissue. fold t2.
  unfold finish, default.
  destruct hide_legend; simpl; unfold bind, ret, perform; simpl;
    repeat match goal with
    | |- context [rejects ?t ?c] => destruct (rejects t c); simpl
    end; reflexivity.
Qed.

End PlotCalls.



(** X6: when [bar_plot] raises [ZeroDivisionError] or [KeyError], the
    exceptions of the division by the number of series and of the
    subscripts [d['values']], [d['errors']] and [d['label']], a figure has
    been created by [plt.subplots()] and drawn on, but no legend was added,
    the figure was not resized and no file was written.  In particular, on
    an empty list of series the only call made is [plt.subplots()], after
    which [ZeroDivisionError] is raised. *)
Theorem bar_plot_own_exception {F} `{PyFloat F}
    (rejects : list (call F) → call F → option string)
    (default_figsize : list F) (w : World F) xlabel ylabel xtick_labels data
    fig_name dest_dir set_figsize legend_kwargs (hide_legend : bool)
    (width_scale : F) :
  let fig := length (filter is_subplots (trace w)) in
  let run :=
    bar_plot rejects default_figsize xlabel ylabel xtick_labels data fig_name
      dest_dir set_figsize legend_kwargs hide_legend width_scale w in
  (∀ e, run.1 = Raise e →
        e = ZeroDivisionError ∨ (∃ key, e = KeyError key) →
        ∃ drawing,
          new_calls w run.2 = plt_subplots :: drawing ∧
          Forall (on_axes fig) drawing ∧
          savefigs_of (new_calls w run.2) = []) ∧
  (∀ labels,
     group_at (heap w) xtick_labels data = Some (labels, []) →
     rejects (trace w) plt_subplots = None →
     run = (Raise ZeroDivisionError,
            mkWorld (heap w) (trace w ++ [plt_subplots]))).
Proof.
  intros fig run. split.
  - intros e He Hown.
    destruct (bar_plot_run rejects default_figsize xlabel ylabel xtick_labels
                data fig_name dest_dir set_figsize legend_kwargs hide_legend
                width_scale w)
      as [[msg Hrun] | [(e' & drawing & _ & Hd & Hrun)
                       | (r & drawing & done_calls & _ & _ & Hres & Hrun)]];
      fold run in Hrun; rewrite Hrun in He |- *; simpl in He.
    + injection He as <-. by destruct Hown as [? | [? ?]].
    + exists drawing. destruct w as [h tr]. unfold new_calls. simpl.
      rewrite drop_app_length. split; [reflexivity |].
      split; [exact Hd |].
      change (savefigs_of (plt_subplots :: drawing) = []).
      apply savefigs_of_no_savefig. constructor; [exact I |].
      eapply Forall_impl; [exact Hd |]. intros c Hc. by destruct c.
    + subst r. destruct Hres as [[? _] | [msg [= ->]]]; [discriminate |].
      by destruct Hown as [? | [? ?]].
  - intros labels Hg Hacc. unfold run, bar_plot.
    unfold bind at 1. unfold subplots, perform. rewrite Hacc.
    unfold bind at 1. destruct w as [h tr]. simpl in *.
    by erewrite bar_subplot_empty by exact Hg.
Qed.

Lemma bar_plot_own_exception_witness :
  let w := mkWorld (empty_group_heap (F := float)) [] in
  let run :=
    bar_plot (F := float) accepting [] None None (VRef 1%positive)
      (VRef 2%positive) "f" (Dir "out") None None false (literal (7 # 10))
      w in
  run = (Raise ZeroDivisionError, mkWorld empty_group_heap [plt_subplots]) ∧
  savefigs_of (new_calls w run.2) = [].
Proof.
  destruct (bar_plot_own_exception (F := float) accepting []
              (mkWorld empty_group_heap []) None None (VRef 1%positive)
              (VRef 2%positive) "f" (Dir "out") None None false
              (literal (7 # 10))) as [Hraise Hempty].
  split.
  - apply (Hempty [VStr "A"; VStr "B"]).
    + vm_compute. reflexivity.
    + reflexivity.
  - destruct (Hraise ZeroDivisionError) as (drawing & _ & _ & Hsave).
    + vm_compute. reflexivity.
    + left. reflexivity.
    + exact Hsave.
Defined.

(** ** Exceptions of the collaborator *)

Section FailFast.
Context {F : Type} `{PyFloat F}.
Variable rejects : list (call F) → call F → option string.
Variable default_figsize : list F.

Lemma accepted_app (t cs1 cs2 : list (call F)) :
  accepted rejects t (cs1 ++ cs2) ↔
  accepted rejects t cs1 ∧ accepted rejects (t ++ cs1) cs2.
Proof.
  revert t. induction cs1 as [| c cs1 IH]; intros t; simpl.
  - rewrite app_nil_r. tauto.
  - rewrite IH, <- app_assoc. simpl. tauto.
Qed.

Lemma fail_fast_ret {A} (a : A) : fail_fast rejects (ret (F := F) a).
Proof. intros w. exists []. by rewrite app_nil_r. Qed.

Lemma fail_fast_raise {A} (e : exn) :
  own_exn e → fail_fast rejects (raise (F := F) (A := A) e).
Proof.
  intros He w. exists []. rewrite app_nil_r. split; [reflexivity |].
  by destruct e.
Qed.

Lemma fail_fast_perform (c : call F) : fail_fast rejects (perform rejects c).
Proof.
  intros w. exists [c]. unfold perform.
  destruct (rejects (trace w) c) as [msg |] eqn:Hc; simpl.
  - split; [reflexivity |]. exists [], c. by rewrite app_nil_r.
  - done.
Qed.

Lemma fail_fast_bind {A B} (m : Py F A) (k : A → Py F B) :
  fail_fast rejects m → (∀ a, fail_fast rejects (k a)) →
  fail_fast rejects (bind m k).
Proof.
  intros Hm Hk w. unfold bind.
  destruct (Hm w) as (cs1 & Ht1 & Ho1).
  destruct (m w) as [[a | e] w1]; simpl in *.
  - destruct (Hk a w1) as (cs2 & Ht2 & Ho2).
    exists (cs1 ++ cs2). rewrite Ht2, Ht1, app_assoc.
    split; [reflexivity |]. rewrite Ht1 in Ho2.
    destruct (k a w1).1 as [b | [| | key | msg]]; simpl in *;
      try (by apply accepted_app).
    destruct Ho2 as (cs0 & c & -> & Hacc & Hrej).
    exists (cs1 ++ cs0), c. rewrite <- !app_assoc in *.
    split; [reflexivity |]. split; [by apply accepted_app | exact Hrej].
  - exists cs1. split; [exact Ht1 |]. by destruct e.
Qed.

Lemma fail_fast_py_len (v : value F) : fail_fast rejects (py_len v).
Proof.
  intros w. unfold py_len.
  destruct v as [| | | | l];
    try (by apply (fail_fast_raise (A := Z) TypeError));
    try apply (fail_fast_ret (A := Z)).
  destruct (heap w !! l) as [[|] |];
    first [by apply (fail_fast_raise (A := Z) TypeError)
          | apply (fail_fast_ret (A := Z))].
Qed.

Lemma fail_fast_py_iter (v : value F) : fail_fast rejects (py_iter v).
Proof.
  intros w. unfold py_iter.
  destruct v as [| | | | l];
    try (by apply (fail_fast_raise (A := list (value F)) TypeError));
    try apply (fail_fast_ret (A := list (value F))).
  destruct (heap w !! l) as [[|] |];
    first [by apply (fail_fast_raise (A := list (value F)) TypeError)
          | apply (fail_fast_ret (A := list (value F)))].
Qed.

Lemma fail_fast_py_getitem (d : value F) key :
  fail_fast rejects (py_getitem d key).
Proof.
  intros w. unfold py_getitem.
  destruct d as [| | | | l];
    try (by apply (fail_fast_raise (A := value F) TypeError)).
  destruct (heap w !! l) as [[| entries] |];
    try (by apply (fail_fast_raise (A := value F) TypeError)).
  destruct (entries !! key);
    [apply (fail_fast_ret (A := value F))
    | by apply (fail_fast_raise (A := value F) (KeyError key))].
Qed.

Lemma fail_fast_truediv (x : F) n : fail_fast rejects (truediv x n).
Proof.
  unfold truediv. destruct (n =? 0);
    [by apply fail_fast_raise | apply fail_fast_ret].
Qed.

Lemma fail_fast_bar_loop ax x bw data colors hatches offset :
  fail_fast rejects (bar_loop rejects ax x bw data colors hatches offset).
Proof.
  revert colors hatches offset.
  induction data as [| d data IH]; intros colors hatches offset; simpl.
  - apply fail_fast_ret.
  - destruct (cycle_next colors) as [[color colors'] |];
      [| apply fail_fast_ret].
    destruct (cycle_next hatches) as [[hatch hatches'] |];
      [| apply fail_fast_ret].
    repeat (apply fail_fast_bind;
            [first [apply fail_fast_py_getitem | apply fail_fast_perform]
            | intros ?]).
    apply IH.
Qed.

Lemma fail_fast_bar_subplot ax xlabel ylabel xtick_labels data ws :
  fail_fast rejects (bar_subplot rejects ax xlabel ylabel xtick_labels data ws).
Proof.
  unfold bar_subplot.
  apply fail_fast_bind; [apply fail_fast_py_len | intros n].
  apply fail_fast_bind; [apply fail_fast_py_len | intros m].
  apply fail_fast_bind; [apply fail_fast_truediv | intros bw].
  apply fail_fast_bind; [apply fail_fast_py_iter | intros items].
  apply fail_fast_bind; [apply fail_fast_bar_loop | intros _].
  apply fail_fast_bind.
  { destruct xlabel; [apply fail_fast_perform | apply fail_fast_ret]. }
  intros _. apply fail_fast_bind.
  { destruct ylabel; [apply fail_fast_perform | apply fail_fast_ret]. }
  intros _.
  repeat (apply fail_fast_bind; [apply fail_fast_perform | intros _]).
  apply fail_fast_perform.
Qed.

Lemma fail_fast_subplots : fail_fast rejects (subplots rejects).
Proof.
  intros w. destruct (fail_fast_perform plt_subplots w) as (cs & Ht & Ho).
  exists cs. unfold subplots.
  destruct (perform rejects plt_subplots w) as [[[] | e] w1]; simpl in *;
    split; assumption.
Qed.

Lemma fail_fast_bar_plot xlabel ylabel xtick_labels data fig_name dest_dir
    set_figsize legend_kwargs hide_legend ws :
  fail_fast rejects
    (bar_plot rejects default_figsize xlabel ylabel xtick_labels data
       fig_name dest_dir set_figsize legend_kwargs hide_legend ws).
Proof.
  unfold bar_plot.
  apply fail_fast_bind; [apply fail_fast_subplots | intros fig].
  apply fail_fast_bind; [apply fail_fast_bar_subplot | intros _].
  apply fail_fast_bind.
  { destruct hide_legend; simpl;
      [apply fail_fast_ret | apply fail_fast_perform]. }
  intros _.
  repeat (apply fail_fast_bind; [apply fail_fast_perform | intros _]).
  apply fail_fast_perform.
Qed.

Lemma fail_fast_new_calls {A} (m : Py F A) w :
  fail_fast rejects m →
  fail_fast_outcome rejects (trace w) (m w).1 (new_calls w (m w).2).
Proof.
  intros Hm. destruct (Hm w) as (cs & Ht & Ho).
  unfold new_calls. by rewrite Ht, drop_app_length.
Qed.

End FailFast.

(** X7: neither [bar_subplot] nor [bar_plot] catches or outlives an
    exception of the plotting collaborator.  Whatever the inputs: if the
    call ends with a collaborator exception, that exception is the answer
    to the last call made, every call before it was accepted and no call
    was made after it; and if the call returns, or raises an exception of
    the script's own, every call it made was accepted. *)
Theorem bar_plot_fail_fast {F} `{PyFloat F}
    (rejects : list (call F) → call F → option string)
    (default_figsize : list F) (w : World F) ax xlabel ylabel xtick_labels
    data fig_name dest_dir set_figsize legend_kwargs hide_legend
    (width_scale : F) :
  let sub :=
    bar_subplot rejects ax xlabel ylabel xtick_labels data width_scale w in
  let plot :=
    bar_plot rejects default_figsize xlabel ylabel xtick_labels data fig_name
      dest_dir set_figsize legend_kwargs hide_legend width_scale w in
  let outcome (run : result unit * World F) :=
    match run.1 with
    | Raise (CollaboratorError msg) =>
        ∃ cs c, new_calls w run.2 = cs ++ [c] ∧
                accepted rejects (trace w) cs ∧
                rejects (trace w ++ cs) c = Some msg
    | _ => accepted rejects (trace w) (new_calls w run.2)
    end in
  outcome sub ∧ outcome plot.
Proof.
  intros sub plot outcome. split.
  - exact (fail_fast_new_calls rejects _ w
             (fail_fast_bar_subplot rejects ax xlabel ylabel xtick_labels
                data width_scale)).
  - exact (fail_fast_new_calls rejects _ w
             (fail_fast_bar_plot rejects default_figsize xlabel ylabel
                xtick_labels data fig_name dest_dir set_figsize
                legend_kwargs hide_legend width_scale)).
Qed.

(** A collaborator that raises on its third call stops [bar_subplot] at its
    third call, the first label call after the two bars. *)
Example bar_subplot_third_call_rejected :
  let w := mkWorld (survey_heap (F := float)) [] in
  let run :=
    bar_subplot rejects_third 0%nat (Some "x"%string) (Some "y"%string)
      (VRef 1%positive) (VRef 8%positive) (literal (7 # 10)) w in
  run.1 = Raise (CollaboratorError "backend failure") ∧
  length (bars_of (new_calls w run.2)) = 2%nat ∧
  last (new_calls w run.2) = Some (ax_set_xlabel 0%nat "x").
Proof. vm_compute. repeat split; reflexivity. Qed.
